(** * sinta-scraper: the fetch, dispatch and merge pipeline

    A shallow embedding of [sinta/author.py] and [sinta/department.py].
    Python values are modelled by an inductive type of objects, exceptions by
    a result type, and the two effects of the code (HTTP requests and the
    cache files under the cache directory) by explicit passing of a [world]. *)

From Stdlib Require Import Ascii String ZArith.
From stdpp Require Import base list strings gmap pretty.

Set Warnings "-register-all".

Local Open Scope Z_scope.
Local Open Scope string_scope.
Local Open Scope list_scope.

(** ** Python strings

    A Python string is modelled by its encoding in UTF-8, a [string] of
    bytes.  Splitting at an ASCII character and searching for an ASCII text
    are the same on the encoding as on the characters, because no byte of a
    longer character is an ASCII byte. *)

Module Py.

(** The characters below code 128 that [str.isspace] accepts. *)
Definition isspace (c : ascii) : bool :=
  let n := nat_of_ascii c in
  ((9 <=? n)%nat && (n <=? 13)%nat) || ((28 <=? n)%nat && (n <=? 32)%nat).

(** The other characters that [str.isspace] accepts, by their encodings:
    U+0085 and U+00A0 have two bytes; U+1680, U+2000 to U+200A, U+2028,
    U+2029, U+202F, U+205F and U+3000 have three. *)
Definition isspace2 (a b : ascii) : bool :=
  let a := N_of_ascii a in
  let b := N_of_ascii b in
  ((a =? 194) && ((b =? 133) || (b =? 160)))%N.

Definition isspace3 (a b c : ascii) : bool :=
  let a := N_of_ascii a in
  let b := N_of_ascii b in
  let c := N_of_ascii c in
  (((a =? 225) && (b =? 154) && (c =? 128))
   || ((a =? 226) && (b =? 128)
       && (((128 <=? c) && (c <=? 138)) || (c =? 168) || (c =? 169) || (c =? 175)))
   || ((a =? 226) && (b =? 129) && (c =? 159))
   || ((a =? 227) && (b =? 128) && (c =? 128)))%N.

(** What is left of [s] after the character of white space at its head, if
    it has one there. *)
Definition space_head (s : string) : option string :=
  match s with
  | String a s1 =>
      if isspace a then Some s1
      else
        match s1 with
        | String b s2 =>
            if isspace2 a b then Some s2
            else
              match s2 with
              | String c s3 => if isspace3 a b c then Some s3 else None
              | EmptyString => None
              end
        | EmptyString => None
        end
  | EmptyString => None
  end.

(** The same for a string whose bytes are in reverse order. *)
Definition space_last (r : string) : option string :=
  match r with
  | String c r1 =>
      if isspace c then Some r1
      else
        match r1 with
        | String b r2 =>
            if isspace2 b c then Some r2
            else
              match r2 with
              | String a r3 => if isspace3 a b c then Some r3 else None
              | EmptyString => None
              end
        | EmptyString => None
        end
  | EmptyString => None
  end.

(** [f] is applied as long as it gives a rest; [n] bounds the number of
    applications, and the length of the string is enough. *)
Fixpoint drop_while (f : string → option string) (n : nat) (s : string) : string :=
  match n with
  | O => s
  | S n' =>
      match f s with
      | Some s' => drop_while f n' s'
      | None => s
      end
  end.

Definition lstrip (s : string) : string :=
  drop_while space_head (String.length s) s.

(** [str.strip()]: white space is removed at both ends. *)
Definition strip (s : string) : string :=
  let s := lstrip s in
  String.rev (drop_while space_last (String.length s) (String.rev s)).

(** [s.split(sep)] for a separator of one character: every occurrence
    splits, and the result is never empty. *)
Fixpoint split_go (sep : ascii) (cur : string) (s : string) : list string :=
  match s with
  | EmptyString => [String.rev cur]
  | String c s' =>
      if Ascii.eqb c sep then String.rev cur :: split_go sep EmptyString s'
      else split_go sep (String c cur) s'
  end.

Definition split (sep : ascii) (s : string) : list string :=
  split_go sep EmptyString s.

(** [sub in s] *)
Fixpoint contains (sub s : string) : bool :=
  String.prefix sub s ||
  match s with
  | String _ s' => contains sub s'
  | EmptyString => false
  end.

End Py.

(** ** Python objects, exceptions *)

(** An identifier is a string or an integer. *)
Inductive ident :=
| IStr (s : string)
| IInt (z : Z).

Global Instance ident_eq_dec : EqDecision ident.
Proof. solve_decision. Defined.

(** The text an f-string inserts for an identifier. *)
Definition py_str (i : ident) : string :=
  match i with
  | IStr s => s
  | IInt z => pretty z
  end.

(** Objects that occur in the records; a [dict] keeps its insertion order. *)
Inductive value :=
| VNone
| VInt (z : Z)
| VStr (s : string)
| VList (l : list value)
| VDict (d : list (string * value)).

Definition of_ident (i : ident) : value :=
  match i with
  | IStr s => VStr s
  | IInt z => VInt z
  end.

Definition of_option (o : option string) : value :=
  match o with
  | Some s => VStr s
  | None => VNone
  end.

(** [d[k]] for a dict; the last binding of a key is the current one. *)
Fixpoint dict_get (k : string) (d : list (string * value)) : option value :=
  match d with
  | [] => None
  | (k', v) :: d' =>
      match dict_get k d' with
      | Some v' => Some v'
      | None => if decide (k' = k) then Some v else None
      end
  end.

Definition field (k : string) (r : value) : option value :=
  match r with
  | VDict d => dict_get k d
  | _ => None
  end.

Inductive exn :=
| ConnectionError (url : string)
| IndexError
| KeyError (k : string)
| AttributeError
| AssertionError (msg : string)
| ValueError (msg : string)
| ConfigurationError (mode : string).

(** What a call comes to: a value, an exception, or (for the one loop of the
    code that has no bound, the crawl of [fetch_all_department]) a call that
    is still running when the fuel of the model is used up. *)
Inductive result (A : Type) :=
| Ok (a : A)
| Raise (e : exn)
| Unfinished.
Arguments Ok {A} a.
Arguments Raise {A} e.
Arguments Unfinished {A}.

Definition rbind {A B} (r : result A) (k : A → result B) : result B :=
  match r with
  | Ok a => k a
  | Raise e => Raise e
  | Unfinished => Unfinished
  end.

Notation "'try' x ← e ; k" := (rbind e (λ x, k))
  (at level 10, x name, e at level 100, k at level 200,
   format "'[v' 'try'  x  ←  e ;  '/' k ']'").

Definition is_ok {A} (r : result A) : bool :=
  match r with Ok _ => true | _ => false end.

(** What a call of a function from outside the two modules comes to: the
    function returns or it raises. *)
Inductive answer (A : Type) :=
| Returns (a : A)
| Raises (e : exn).
Arguments Returns {A} a.
Arguments Raises {A} e.

Definition call {A} (r : answer A) : result A :=
  match r with
  | Returns a => Ok a
  | Raises e => Raise e
  end.

(** [l[i]] for a list and a position counted from the front. *)
Definition getitem {A} (l : list A) (i : nat) : result A :=
  match l !! i with
  | Some x => Ok x
  | None => Raise IndexError
  end.

(** [l[-1]] *)
Definition getitem_last {A} (l : list A) : result A :=
  match last l with
  | Some x => Ok x
  | None => Raise IndexError
  end.

(** [l[-2]] *)
Definition getitem_last2 {A} (l : list A) : result A :=
  match reverse l !! 1%nat with
  | Some x => Ok x
  | None => Raise IndexError
  end.

(** A list comprehension whose body can raise: the first failure wins. *)
Fixpoint comprehension {A B} (f : A → result B) (l : list A) : result (list B) :=
  match l with
  | [] => Ok []
  | x :: l' =>
      try y ← f x;
      try ys ← comprehension f l';
      Ok (y :: ys)
  end.

(** ** Parsed pages

    What BeautifulSoup gives for a page: an element has its text, its
    attributes, and for each CSS selector the elements that match below it. *)

Inductive tag :=
| Tag (text : string) (attrs : list (string * string)) (select : string → list tag).

Definition text (t : tag) : string :=
  match t with Tag s _ _ => s end.

Definition attrs (t : tag) : list (string * string) :=
  match t with Tag _ a _ => a end.

Definition select (css : string) (t : tag) : list tag :=
  match t with Tag _ _ f => f css end.

(** [t.select_one(css)]: the first match or [None]. *)
Definition select_one (css : string) (t : tag) : option tag :=
  head (select css t).

(** [t.find(name, key=v)]: the first element of that name whose attribute
    has that value, or [None]; the same element as the first match of the
    selector [name[key=v]]. *)
Definition find (name key v : string) (t : tag) : option tag :=
  select_one (name +:+ "[" +:+ key +:+ "=" +:+ v +:+ "]") t.

(** [t[name]]: a missing attribute is a [KeyError]. *)
Definition attr (name : string) (t : tag) : result string :=
  match list_find (λ kv, kv.1 = name) (attrs t) with
  | Some (_, kv) => Ok kv.2
  | None => Raise (KeyError name)
  end.

(** An attribute access on [None] is an [AttributeError]. *)
Definition not_none {A} (o : option A) : result A :=
  match o with
  | Some a => Ok a
  | None => Raise AttributeError
  end.

(** ** The world: the network and the cache files *)

Record Response := { status_code : Z; content : string }.

(** One row of the table of departments: the dict [department_info] of
    [fetch_all_department], and a row of the DataFrame made of them. *)
Record affiliation_info := {
  aff_id : string;
  aff_code : string;
  aff_name : string;
  aff_univ_abbrev : string;
  aff_url : string;
  aff_location : string
}.

Record department_info := {
  department_id : string;
  name : string;
  level : string;
  full_name : string;
  url : string;
  department_id_hash : string;
  univ_id_hash : string;
  affiliation : affiliation_info
}.

(** The state a call can change: the cache files (path to table) and the
    requests sent so far, oldest first. *)
Record world := {
  fs : gmap string (list department_info);
  log : list string
}.

Definition M (A : Type) : Type := world → result A * world.

Definition ret {A} (a : A) : M A := λ w, (Ok a, w).

Definition raise {A} (e : exn) : M A := λ w, (Raise e, w).

Definition bind {A B} (m : M A) (k : A → M B) : M B :=
  λ w, match m w with
       | (Ok a, w') => k a w'
       | (Raise e, w') => (Raise e, w')
       | (Unfinished, w') => (Unfinished, w')
       end.

Definition lift {A} (r : result A) : M A := λ w, (r, w).

Notation "'do' x ← e ; k" := (bind e (λ x, k))
  (at level 10, x name, e at level 100, k at level 200,
   format "'[v' 'do'  x  ←  e ;  '/' k ']'").

(** What the code takes from outside: the configuration, the network, the
    libraries, and the parts of the package that the two modules import. *)
Record env := {
  (** [get_config()["domain"]] *)
  domain : string;
  (** [Path.home()] *)
  home : string;
  (** the answer to [requests.get(url)]; [None] when the request itself
      fails and [get] raises *)
  web : string → option Response;
  (** [BeautifulSoup(content, "html.parser")] *)
  BeautifulSoup : string → tag;
  (** [str.lower()], which follows the tables of Unicode *)
  str_lower : string → string;
  (** [util.utils.cast], which is outside the two modules: what it returns
      for a text, or the exception that it raises *)
  cast : string → answer value;
  (** [parse_qs(urlparse(url).query).get("user", [None])[0]] for an address:
      the first value of its parameter [user], [None] without one; for some
      addresses [urlparse] raises a [ValueError] *)
  query_user : string → answer (option string);
  (** the text that an f-string inserts for the array that [unique()]
      returns; it depends on the versions of pandas and numpy *)
  array_str : list string → string;
  (** [sinta.affiliation(affiliation_id)], from another module of the
      package: the requests that the call sends, and the ["code"] of the
      dict that it returns, or the exception that it raises; the call leaves
      the cache files of the departments as they are *)
  sinta_affiliation_requests : ident → list string;
  sinta_affiliation_code : ident → result string;
  (** the order in which the threads started for a list of identifiers
      come to their end *)
  schedule : list ident → list ident
}.

(** Every thread that is started finishes once: the completion order is a
    rearrangement of the identifiers. *)
Definition joins_all (E : env) : Prop :=
  ∀ l, schedule E l ≡ₚ l.

(** [requests.get(url)]: the request is sent (and recorded), and either a
    response comes back, whatever its status, or the call raises. *)
Definition get (E : env) (url : string) : M Response :=
  λ w,
    let w' := {| fs := fs w; log := log w ++ [url] |} in
    match web E url with
    | Some r => (Ok r, w')
    | None => (Raise (ConnectionError url), w')
    end.

(** ** [util.utils]

    The helpers that both modules import from [util/utils.py], a file
    outside the two modules that are verified here; each helper is given
    from its description in the specification. *)

Module Util.

(** The identifiers of a call: one identifier or a sequence of them. *)
Inductive ids_arg :=
| One (i : ident)
| Many (l : list ident).

(** Modelled from the spec: [listify] of [util/utils.py] is missing; a
    single identifier is coerced into a one-element sequence. *)
Definition listify (a : ids_arg) : list ident :=
  match a with
  | One i => [i]
  | Many l => l
  end.

Global Instance not_none_dec (v : value) : Decision (v ≠ VNone).
Proof. destruct v; (left; discriminate) || (right; intros H; by apply H). Defined.

(** Modelled from the spec: [compact_list] of [util/utils.py] is missing;
    null results are removed from the collected entries. *)
Definition compact_list (l : list value) : list value :=
  filter (λ v, v ≠ VNone) l.

(** Modelled from the spec: the values of [format_output], which is missing;
    a single record, a sequence of records, or a table with a row per
    record. *)
Inductive output :=
| Bare (r : value)
| Sequence (l : list value)
| Table (rows : list value).

(** The records that an output holds. *)
Definition records (o : output) : list value :=
  match o with
  | Bare r => [r]
  | Sequence l => l
  | Table rows => rows
  end.

(** Modelled from the spec: [format_output] of [util/utils.py] is missing;
    mode "dict" returns the record unwrapped if there is exactly one and the
    full list otherwise, "list" always returns the sequence, "dataframe"
    makes a table with one row per record, and any other mode is a
    configuration error. *)
Definition format_output (result : list value) (output_format : string)
  : M output :=
  if decide (output_format = "dict") then
    match result with
    | [r] => ret (Bare r)
    | _ => ret (Sequence result)
    end
  else if decide (output_format = "list") then ret (Sequence result)
  else if decide (output_format = "dataframe") then ret (Table result)
  else raise (ConfigurationError output_format).

(** The modes that [format_output] knows. *)
Definition recognized (output_format : string) : Prop :=
  output_format = "dict" ∨ output_format = "list" ∨ output_format = "dataframe".

(** Modelled from the spec: the units of [run_thread], which is missing, in
    the order in which they come to their end.  A unit that raises ends
    alone: the exception stays in its thread, the accumulator is as it was,
    and the units after it run. *)
Fixpoint join {K} (worker : ident → list value → K → M (list value))
    (kwargs : K) (order : list ident) (worker_result : list value)
  : M (list value) :=
  match order with
  | [] => ret worker_result
  | id :: rest =>
      λ w,
        match worker id worker_result kwargs w with
        | (Ok worker_result', w') => join worker kwargs rest worker_result' w'
        | (Raise _, w') => join worker kwargs rest worker_result w'
        | (Unfinished, w') => (Unfinished, w')
        end
  end.

(** Modelled from the spec: [run_thread] of [util/utils.py] is missing; one
    unit of execution is started per identifier, with the extra arguments
    passed on unchanged, every unit appends to one shared accumulator, and
    the call returns the accumulator when all units have finished.  A
    worker changes the shared accumulator in one step, its append, so a run
    is given by the order in which the units finish; the model runs the
    units one after the other in that order, and records their requests in
    that order too. *)
Definition run_thread {K} (E : env)
    (worker : ident → list value → K → M (list value))
    (id_list : list ident) (kwargs : K) : M (list value) :=
  join worker kwargs (schedule E id_list) [].

End Util.

(** ** [sinta/author.py] *)

Module Author.
Import Util.

(** [urlparse(None)] has an empty query, and the result is [None]. *)
Definition get_user_id (E : env) (url : option string) : result value :=
  match url with
  | Some u => try user_id ← call (query_user E u); Ok (of_option user_id)
  | None => Ok VNone
  end.

Definition score_names : list string :=
  ["overall"; "3_years"; "affiliation"; "affiliation_3_years"].

Definition stat_names : list string :=
  ["articles"; "citations"; "cited_docs"; "h-index"; "i10-index"; "g-index"].

Definition indexers : list string := ["scopus"; "scholar"; "wos"].

(** Lines 31 to 76 of [worker]: the record read from a parsed page. *)
Definition parse (E : env) (author_id : ident) (url : string) (soup : tag)
  : result value :=
  try a ← getitem (select "h3 > a" soup) 0;
  let name := Py.strip (text a) in
  let profile := select ".meta-profile a" soup in
  try p0 ← getitem profile 0;
  let affil_name := Py.strip (text p0) in
  try href ← attr "href" p0;
  let affil_url := Py.strip href in
  try last ← getitem_last (Py.split "/" affil_url);
  try affil_id ← call (cast E last);
  try p1 ← getitem profile 1;
  let dept := Py.strip (text p1) in
  let subjects :=
    (λ subject, VStr (Py.strip (text subject))) <$> select ".subject-list a" soup in
  let scores_soup := select ".stat-profile .pr-num" soup in
  try scores_int ←
    comprehension (λ i, try s ← getitem scores_soup i; call (cast E (text s)))
      (seq 0 4);
  let scores := zip score_names scores_int in
  let stat_soup := select ".stat-table > tbody > tr" soup in
  let img_tag := find "img" "alt" "avatar" soup in
  try img_url ←
    match img_tag with
    | Some t => try src ← attr "src" t; Ok (Some src)
    | None => Ok None
    end;
  try stats ←
    comprehension
      (λ '(i, stat_name),
         try s ←
           comprehension
             (λ j, try tr ← getitem stat_soup i;
                   try td ← getitem (select "td" tr) j;
                   call (cast E (Py.strip (text td))))
             (seq 1 3);
         Ok (stat_name, VDict (zip indexers s)))
      (imap (λ i stat_name, (i, stat_name)) stat_names);
  try google_scholar_id ← get_user_id E img_url;
  Ok (VDict
        ([ ("id", of_ident author_id);
           ("name", VStr name);
           ("url", VStr url);
           ("affiliation",
             VDict [("id", affil_id); ("name", VStr affil_name);
                    ("url", VStr affil_url)]);
           ("department", VStr dept);
           ("subjects", VList subjects);
           ("score", VDict scores);
           ("image_url", of_option img_url);
           ("google_scholar_id", google_scholar_id) ] ++ stats)).

Definition worker (E : env) (author_id : ident) (worker_result : list value)
    (_ : unit) : M (list value) :=
  let url := domain E +:+ "/authors/profile/" +:+ py_str author_id in
  do html ← get E url;
  let soup := BeautifulSoup E (content html) in
  do result_data ← lift (parse E author_id url soup);
  ret (worker_result ++ [result_data]).

Definition author (E : env) (author_ids : ids_arg) (output_format : string)
  : M output :=
  let author_ids := listify author_ids in
  do result ← run_thread E (worker E) author_ids ();
  let result := compact_list result in
  format_output result output_format.

End Author.

(** ** [sinta/department.py] *)

Module Department.
Import Util.

(** *** pandas *)

(** A DataFrame with one row per department, in the order of the rows; the
    columns are the fields of [department_info]. *)
Abbreviation frame := (list department_info).

(** [pd.DataFrame.from_dict(l).set_index("department_id_hash", drop=False)]:
    a frame made from no row has no column, and the index cannot be set. *)
Definition from_dict_set_index (l : list department_info) : result frame :=
  match l with
  | [] => Raise (KeyError "None of ['department_id_hash'] are in the columns")
  | _ => Ok l
  end.

(** [df.T.to_json(cache, indent=2)]: the file is a JSON object with one key
    per row, the index of the row; two rows with one index cannot be
    written, and then no file is made. *)
Definition to_json (cache : string) (df : frame) : M unit :=
  λ w,
    if decide (NoDup (department_id_hash <$> df)) then
      (Ok (), {| fs := <[cache := df]> (fs w); log := log w |})
    else
      (Raise (ValueError "DataFrame columns must be unique for orient='columns'."), w).

(** [cache.exists()] *)
Definition exists_ (cache : string) : M bool :=
  λ w, (Ok (bool_decide (is_Some (fs w !! cache))), w).

(** [pd.read_json(cache).T]: the table that the file holds. *)
Definition read_json (cache : string) : M frame :=
  λ w,
    match fs w !! cache with
    | Some df => (Ok df, w)
    | None => (Raise (ValueError "File does not exist"), w)
    end.

(** [series.isin(values)], row by row *)
Definition isin (x : string) (values : list ident) : bool :=
  bool_decide (IStr x ∈ values).

(** [series.unique()]: the values in the order of their first occurrence *)
Fixpoint unique (l : list string) : list string :=
  match l with
  | [] => []
  | x :: l' => x :: filter (λ y, y ≠ x) (unique l')
  end.

(** [assert c, msg] *)
Definition assert (c : bool) (msg : string) : M unit :=
  if c then ret () else raise (AssertionError msg).

(** *** The crawl *)

(** Lines 89 to 104: the block about the affiliation, read on each page. *)
Definition parse_affiliation (soup : tag) : result affiliation_info :=
  let univ_info := select_one ".univ-name" soup in
  try info ← not_none univ_info;
  try a ← not_none (select_one "h3 a" info);
  let univ_name := Py.strip (text a) in
  try a' ← not_none (select_one "h3 a" info);
  try univ_url ← attr "href" a';
  try abbrev ← not_none (select_one ".affil-abbrev" info);
  let univ_abbrev := Py.strip (text abbrev) in
  try loc ← not_none (select_one ".affil-loc" info);
  let univ_location := Py.strip (text loc) in
  try code ← not_none (select_one ".affil-code" info);
  let univ_codex := Py.split " " (Py.strip (text code)) in
  try c2 ← getitem univ_codex 2;
  try c6 ← getitem univ_codex 6;
  Ok {| aff_id := c2; aff_code := c6; aff_name := univ_name;
        aff_univ_abbrev := univ_abbrev; aff_url := univ_url;
        aff_location := univ_location |}.

(** Lines 113 to 132: one row of the listing.  [None] when the row is not
    one of a department and is passed over. *)
Definition parse_row (E : env) (affiliation : affiliation_info) (row : tag)
  : result (option department_info) :=
  let name_tag := select_one ".tbl-content-name a" row in
  let code_tag := select_one ".tbl-content-meta-num" row in
  let level_tag := select_one ".col-lg-1.tbl-content-meta.mb-2" row in
  match name_tag, code_tag with
  | Some name_tag, Some code_tag =>
      try href ← attr "href" name_tag;
      if Py.contains "department" href && negb (Py.contains "Authors" (text name_tag))
      then
        try level_tag ← not_none level_tag;
        try url_1 ← getitem_last (Py.split "/" (str_lower E href));
        try url_2 ← getitem_last2 (Py.split "/" (str_lower E href));
        Ok (Some
              {| department_id := Py.strip (text code_tag);
                 name := Py.strip (text name_tag);
                 level := Py.strip (text level_tag);
                 full_name :=
                   Py.strip (text name_tag) +:+ " (" +:+ Py.strip (text level_tag) +:+ ")";
                 url := str_lower E href;
                 department_id_hash := url_1;
                 univ_id_hash := url_2;
                 affiliation := affiliation |})
      else Ok None
  | _, _ => Ok None
  end.

(** The [for] loop over the rows of one page: the rows of departments are
    appended to [worker_result] in their order. *)
Fixpoint parse_rows (E : env) (affiliation : affiliation_info) (rows : list tag)
    (worker_result : list department_info) : result (list department_info) :=
  match rows with
  | [] => Ok worker_result
  | row :: rows' =>
      try r ← parse_row E affiliation row;
      parse_rows E affiliation rows'
        (match r with
         | Some department_info => worker_result ++ [department_info]
         | None => worker_result
         end)
  end.

Definition page_url (E : env) (affiliation_id : ident) (affiliation_code : string)
    (page : Z) : string :=
  domain E +:+ "/affiliations/departments/" +:+ py_str affiliation_id +:+ "/"
    +:+ affiliation_code +:+ "?page=" +:+ pretty page.

(** The [while True] loop, from the state in which it is entered.  The loop
    has no bound: [fuel] is the number of pages the model may fetch.  The
    calls to [logging] and the counter they print are left out. *)
Fixpoint crawl (E : env) (fuel : nat) (affiliation_id : ident)
    (affiliation_code : string) (page : Z)
    (worker_result : list department_info) : M (list department_info) :=
  match fuel with
  | O => lift Unfinished
  | S fuel' =>
      let url := page_url E affiliation_id affiliation_code page in
      do html ← get E url;
      let soup := BeautifulSoup E (content html) in
      do affiliation ← lift (parse_affiliation soup);
      let department_rows := select ".content-list-no-filter .d-item" soup in
      match department_rows with
      | [] => ret worker_result
      | _ =>
          do worker_result ←
            lift (parse_rows E affiliation department_rows worker_result);
          crawl E fuel' affiliation_id affiliation_code (page + 1) worker_result
      end
  end.

(** Line 79, [sinta.affiliation(affiliation_id)["code"]]: the requests of
    the call are sent, and the code comes back or the call raises. *)
Definition sinta_affiliation (E : env) (affiliation_id : ident) : M string :=
  λ w,
    (sinta_affiliation_code E affiliation_id,
     {| fs := fs w; log := log w ++ sinta_affiliation_requests E affiliation_id |}).

Definition fetch_all_department (E : env) (fuel : nat) (affiliation_id : ident)
  : M (list department_info) :=
  let worker_result := [] in
  do affiliation_code ← sinta_affiliation E affiliation_id;
  let page := 1 in
  crawl E fuel affiliation_id affiliation_code page worker_result.

(** *** The worker and the lookup *)

Record kwargs := {
  affiliation_id : ident;
  affiliation_code : list string
}.

Definition parse (E : env) (department_id : ident) (url : string) (soup : tag)
  : result value :=
  try h3 ← getitem (select ".univ-name > h3" soup) 0;
  let name := Py.strip (text h3) in
  try loc ← getitem (select ".affil-loc" soup) 0;
  let location := Py.strip (text loc) in
  try affiliation_soup ← getitem (select ".meta-profile > a" soup) 0;
  try href ← attr "href" affiliation_soup;
  try last ← getitem_last (Py.split "/" href);
  try affil_id ← call (cast E last);
  try href' ← attr "href" affiliation_soup;
  let affiliation :=
    VDict [("id", affil_id);
           ("name", VStr (Py.strip (text affiliation_soup)));
           ("url", VStr href')] in
  Ok (VDict [("id", of_ident department_id);
             ("name", VStr name);
             ("location", VStr location);
             ("url", VStr url);
             ("affiliation", affiliation)]).

Definition worker (E : env) (department_id : ident) (worker_result : list value)
    (kw : kwargs) : M (list value) :=
  let affiliation_id := affiliation_id kw in
  let affiliation_code := affiliation_code kw in
  let url := domain E +:+ "/departments/profile/" +:+ py_str affiliation_id +:+ "/"
               +:+ array_str E affiliation_code +:+ "/" +:+ py_str department_id in
  do html ← get E url;
  let soup := BeautifulSoup E (content html) in
  do result_data ← lift (parse E department_id url soup);
  ret (worker_result ++ [result_data]).

Definition cache_file (E : env) (affiliation_id : ident)
    (cache_path : option string) : string :=
  let cache_path := default (home E +:+ "/.cache/sinta/department") cache_path in
  cache_path +:+ "/" +:+ py_str affiliation_id +:+ ".json".

(** Line 52: the rows whose [department_id] is one of the given ids. *)
Definition select_rows (df : frame) (department_ids : ids_arg) : frame :=
  filter (λ r, isin (department_id r) (listify department_ids)) df.

(** Lines 31 to 48: the table, from the file or from a crawl.  The
    directories that [mkdir] makes are not part of the model. *)
Definition load_table (E : env) (fuel : nat) (affiliation_id : ident)
    (cache_path : option string) : M frame :=
  let cache := cache_file E affiliation_id cache_path in
  do found ← exists_ cache;
  if found : bool then read_json cache
  else
    do l ← fetch_all_department E fuel affiliation_id;
    do df ← lift (from_dict_set_index l);
    do _ ← to_json cache df;
    ret df.

Definition department (E : env) (fuel : nat) (department_ids : ids_arg)
    (affiliation_id : ident) (output_format : string)
    (cache_path : option string) : M output :=
  do df ← load_table E fuel affiliation_id cache_path;
  let subset := select_rows df department_ids in
  do _ ← assert (0 <? length subset)%nat
           "No departments found for the given department IDs.";
  let hashed_department_ids := department_id_hash <$> subset in
  let hashed_univ_ids := unique (univ_id_hash <$> subset) in
  do result ←
    run_thread E (worker E) (listify (Many (IStr <$> hashed_department_ids)))
      {| affiliation_id := affiliation_id; affiliation_code := hashed_univ_ids |};
  let result := compact_list result in
  format_output result output_format.

End Department.

(** * Notions used in the statements *)

Import Util.

(** A result that is there: a value or an exception. *)
Definition finished {A} (r : result A) : Prop := r ≠ Unfinished.

(** The world after one more request. *)
Definition sent (url : string) (w : world) : world :=
  {| fs := fs w; log := log w ++ [url] |}.

Definition sent_all (urls : list string) (w : world) : world :=
  {| fs := fs w; log := log w ++ urls |}.

Definition appended (r : result value) (worker_result : list value)
  : result (list value) :=
  try result_data ← r; Ok (worker_result ++ [result_data]).

(** A worker of the package sends one request and then appends its record,
    or raises: [url_of] and [outcome] say which. *)
Definition one_request {K} (worker : ident → list value → K → M (list value))
    (kwargs : K) (url_of : ident → string) (outcome : ident → result value)
  : Prop :=
  (∀ id worker_result w,
     worker id worker_result kwargs w
     = (appended (outcome id) worker_result, sent (url_of id) w))
  ∧ (∀ id, finished (outcome id)).

Definition succeeds (outcome : ident → result value) (id : ident) : bool :=
  is_ok (outcome id).

(** The records of the workers that succeed, in the order of [order]. *)
Definition produced (outcome : ident → result value) (order : list ident)
  : list value :=
  omap (λ id, match outcome id with Ok r => Some r | _ => None end) order.

(** The last steps of [author] and of [department]: the workers are run, the
    result is compacted and formatted. *)
Definition dispatch {K} (E : env)
    (worker : ident → list value → K → M (list value)) (kwargs : K)
    (id_list : list ident) (output_format : string) : M output :=
  do result ← run_thread E worker id_list kwargs;
  let result := compact_list result in
  format_output result output_format.

(** *** The worker of an author *)

Definition author_url (E : env) (author_id : ident) : string :=
  domain E +:+ "/authors/profile/" +:+ py_str author_id.

(** What the worker of [author_id] comes to: the request fails, or the page
    that comes back, whatever its status, is parsed. *)
Definition author_outcome (E : env) (author_id : ident) : result value :=
  match web E (author_url E author_id) with
  | Some html =>
      Author.parse E author_id (author_url E author_id)
        (BeautifulSoup E (content html))
  | None => Raise (ConnectionError (author_url E author_id))
  end.

(** *** The worker of a department *)

Definition department_url (E : env) (kw : Department.kwargs) (department_id : ident)
  : string :=
  domain E +:+ "/departments/profile/" +:+ py_str (Department.affiliation_id kw)
    +:+ "/" +:+ array_str E (Department.affiliation_code kw)
    +:+ "/" +:+ py_str department_id.

Definition department_outcome (E : env) (kw : Department.kwargs)
    (department_id : ident) : result value :=
  match web E (department_url E kw department_id) with
  | Some html =>
      Department.parse E department_id (department_url E kw department_id)
        (BeautifulSoup E (content html))
  | None => Raise (ConnectionError (department_url E kw department_id))
  end.

(** The arguments that [department] gives to its workers for a selection of
    rows. *)
Definition kwargs_of (affiliation_id : ident) (subset : list department_info)
  : Department.kwargs :=
  {| Department.affiliation_id := affiliation_id;
     Department.affiliation_code := Department.unique (univ_id_hash <$> subset) |}.

Definition hashed_ids (subset : list department_info) : list ident :=
  IStr <$> (department_id_hash <$> subset).

(** *** The pages of a listing *)

Definition page_soup (E : env) (affiliation_id : ident) (code : string) (page : nat)
  : option tag :=
  (λ html, BeautifulSoup E (content html))
    <$> web E (Department.page_url E affiliation_id code (Z.of_nat page)).

(** The rows of a page. *)
Definition listing (soup : tag) : list tag :=
  select ".content-list-no-filter .d-item" soup.

(** Page [page] comes back with its block about the affiliation, has the
    rows [rows], and these give the entries [entries]. *)
Definition listed (E : env) (affiliation_id : ident) (code : string) (page : nat)
    (rows : list tag) (entries : list department_info) : Prop :=
  ∃ soup affiliation,
    page_soup E affiliation_id code page = Some soup
    ∧ Department.parse_affiliation soup = Ok affiliation
    ∧ listing soup = rows
    ∧ Department.parse_rows E affiliation rows [] = Ok entries.

(** The pages [page] to [page + k - 1] come back with their blocks and have
    rows, and the rows of page [p] give the entries [entries p]. *)
Definition full_pages (E : env) (affiliation_id : ident) (code : string)
    (entries : nat → list department_info) (page k : nat) : Prop :=
  ∀ p, (page ≤ p < page + k)%nat →
       ∃ rows, rows ≠ [] ∧ listed E affiliation_id code p rows (entries p).

(** Page [page] yields the entries [entries]. *)
Definition yields (E : env) (affiliation_id : ident) (code : string) (page : nat)
    (entries : list department_info) : Prop :=
  ∃ rows, listed E affiliation_id code page rows entries.

Definition page_urls (E : env) (affiliation_id : ident) (code : string) (n : nat)
  : list string :=
  (λ page, Department.page_url E affiliation_id code (Z.of_nat page)) <$> seq 1 n.

(** The requests of a crawl that goes up to page [n]: those of the lookup of
    the affiliation, and then those for the pages 1 to [n]. *)
Definition crawl_urls (E : env) (affiliation_id : ident) (code : string) (n : nat)
  : list string :=
  sinta_affiliation_requests E affiliation_id ++ page_urls E affiliation_id code n.

(** The entries of pages 1 to [n]. *)
Definition entries_upto (entries : nat → list department_info) (n : nat)
  : list department_info :=
  concat (entries <$> seq 1 n).

(** *** Statements that the code does not meet, as they are written *)



(** The crawl stops at the first page that yields no entry, and returns the
    entries of the pages before it. *)
Definition crawl_as_stated (E : env) (fuel : nat) (affiliation_id : ident)
    (w : world) : Prop :=
  ∀ code n entries,
    sinta_affiliation_code E affiliation_id = Ok code →
    (∀ page, (1 ≤ page < n)%nat →
       yields E affiliation_id code page (entries page) ∧ entries page ≠ []) →
    yields E affiliation_id code n [] →
    (1 ≤ n ≤ fuel)%nat →
    Department.fetch_all_department E fuel affiliation_id w
    = (Ok (entries_upto entries (n - 1)),
       sent_all (crawl_urls E affiliation_id code n) w).

(** A mode that is not recognized is reported before any request. *)
Definition mode_checked_first (E : env) (author_ids : ids_arg)
    (output_format : string) (w : world) : Prop :=
  ¬ recognized output_format →
  (Author.author E author_ids output_format w).1
  = Raise (ConfigurationError output_format)
  ∧ log (Author.author E author_ids output_format w).2 = log w.




(** ** A small site

    Pages and a network for the examples: authors 1 to 4, and the listings
    of the affiliations 404, 405 and 406. *)

Module Sample.

Fixpoint assoc {A} (k : string) (l : list (string * A)) : option A :=
  match l with
  | [] => None
  | (k', a) :: l' => if decide (k' = k) then Some a else assoc k l'
  end.

Definition node (children : list (string * list tag)) : tag :=
  Tag "" [] (λ css, default [] (assoc css children)).

Definition leaf (s : string) : tag := Tag s [] (λ _, []).

Definition link (s href : string) : tag := Tag s [("href", href)] (λ _, []).

Definition stat_row : tag :=
  node [("td", [leaf "Articles"; leaf "12"; leaf "30"; leaf "7"])].

(** The profile of an author, with every position the worker reads. *)
Definition author_page : tag :=
  node [("h3 > a", [leaf " Alice "]);
        (".meta-profile a",
          [link "Universitas A" "https://sinta.test/affiliations/profile/404";
           leaf "Physics"]);
        (".subject-list a", [leaf "Optics"; leaf "Lasers"]);
        (".stat-profile .pr-num", [leaf "10"; leaf "5"; leaf "8"; leaf "4"]);
        (".stat-table > tbody > tr", replicate 6 stat_row)].

(** A page without any of the positions. *)
Definition blank_page : tag := node [].

Definition department_page : tag :=
  node [(".univ-name > h3", [leaf "Physics"]);
        (".affil-loc", [leaf "Bandung"]);
        (".meta-profile > a", [link "Universitas A" "/affiliations/profile/404"])].

(** The block about the affiliation at the head of a listing page. *)
Definition header : tag :=
  node [("h3 a", [link "Universitas A" "/affiliations/profile/404"]);
        (".affil-abbrev", [leaf "UA"]);
        (".affil-loc", [leaf "Bandung"]);
        (".affil-code", [leaf "ID : 404 | CODE : 001028"])].

Definition row (s code href : string) : tag :=
  node [(".tbl-content-name a", [link s href]);
        (".tbl-content-meta-num", [leaf code]);
        (".col-lg-1.tbl-content-meta.mb-2", [leaf "S1"])].

Definition listing_page (rows : list tag) : tag :=
  node [(".univ-name", [header]); (".content-list-no-filter .d-item", rows)].

Definition physics : tag :=
  row "Physics" "45201" "https://sinta.test/departments/profile/404/UNIV/AAA".
Definition biology : tag :=
  row "Biology" "46201" "https://sinta.test/departments/profile/404/UNIV/BBB".
Definition geology : tag :=
  row "Geology" "34201" "https://sinta.test/departments/profile/404/UNIV/CCC".

(** A row of the listing that is not one of a department. *)
Definition authors_row : tag :=
  row "Authors" "0" "https://sinta.test/affiliations/authors/404".

Definition documents : list (string * tag) :=
  [("author", author_page);
   ("department", department_page);
   ("listing-1", listing_page [physics; biology]);
   ("listing-2", listing_page [geology]);
   ("listing-3", listing_page []);
   ("authors-only", listing_page [authors_row]);
   ("rows-only", node [(".content-list-no-filter .d-item", [])])].

Definition ok (body : string) : Response := {| status_code := 200; content := body |}.

(** [str.lower()] for the addresses of the site, whose letters are all
    among A to Z and a to z. *)
Definition lower_char (c : ascii) : ascii :=
  let n := nat_of_ascii c in
  if ((65 <=? n)%nat && (n <=? 90)%nat) then ascii_of_nat (n + 32) else c.

Fixpoint lower (s : string) : string :=
  match s with
  | String c s' => String (lower_char c) (lower s')
  | EmptyString => EmptyString
  end.

(** The text of an array as numpy prints a short array of plain strings. *)
Definition print_array (a : list string) : string :=
  "[" +:+ String.concat " " ((λ s, "'" +:+ s +:+ "'") <$> a) +:+ "]".

(** The lookup of an affiliation asks for its profile. *)
Definition profile_request (affiliation_id : ident) : list string :=
  ["https://sinta.test/affiliations/profile/" +:+ py_str affiliation_id].

Definition site : list (string * Response) :=
  [("https://sinta.test/authors/profile/1", ok "author");
   ("https://sinta.test/authors/profile/3", ok "nothing");
   ("https://sinta.test/authors/profile/4", {| status_code := 404; content := "author" |});
   ("https://sinta.test/affiliations/departments/404/001028?page=1", ok "listing-1");
   ("https://sinta.test/affiliations/departments/404/001028?page=2", ok "listing-2");
   ("https://sinta.test/affiliations/departments/404/001028?page=3", ok "listing-3");
   ("https://sinta.test/affiliations/departments/405/001028?page=1", ok "authors-only");
   ("https://sinta.test/affiliations/departments/405/001028?page=2", ok "listing-2");
   ("https://sinta.test/affiliations/departments/405/001028?page=3", ok "listing-3");
   ("https://sinta.test/affiliations/departments/406/001028?page=1", ok "listing-1");
   ("https://sinta.test/affiliations/departments/406/001028?page=2", ok "rows-only");
   ("https://sinta.test/departments/profile/404/['univ']/aaa", ok "department");
   ("https://sinta.test/departments/profile/404/['univ']/ccc", ok "department")].

(** Author 1 has a profile, the request for author 2 fails, the page of
    author 3 is blank, and the profile of author 4 comes with status 404.
    The threads finish in the reverse of the order of their start. *)
Definition E : env :=
  {| domain := "https://sinta.test";
     home := "/home/user";
     web := λ url, assoc url site;
     BeautifulSoup := λ body, default blank_page (assoc body documents);
     str_lower := lower;
     cast := λ s, Returns (VStr s);
     query_user := λ _, Returns None;
     array_str := print_array;
     sinta_affiliation_requests := profile_request;
     sinta_affiliation_code := λ _, Ok "001028";
     schedule := reverse |}.

Definition w0 : world := {| fs := ∅; log := [] |}.

(** A table with the entries A, B and C. *)
Definition entry (id title hash : string) : department_info :=
  {| department_id := id; name := title; level := "S1";
     full_name := title +:+ " (S1)";
     url := "https://sinta.test/departments/profile/404/univ/" +:+ hash;
     department_id_hash := hash; univ_id_hash := "univ";
     affiliation :=
       {| aff_id := "404"; aff_code := "001028"; aff_name := "Universitas A";
          aff_univ_abbrev := "UA"; aff_url := "/affiliations/profile/404";
          aff_location := "Bandung" |} |}.

(** The table of affiliation 404 after a crawl. *)
Definition table404 : list department_info :=
  [entry "45201" "Physics" "aaa"; entry "46201" "Biology" "bbb";
   entry "34201" "Geology" "ccc"].

Definition abc : list department_info :=
  [entry "A" "Physics" "aaa"; entry "B" "Biology" "bbb";
   entry "C" "Geology" "ccc"].

(** A world in which the table of affiliation 404 is in the cache. *)
Definition w_abc : world :=
  {| fs := {[ "/home/user/.cache/sinta/department/404.json" := abc ]}; log := [] |}.

End Sample.

(** ** More notions and sites *)

(** The entries of page [p], when the pages 1, 2, ... have the entries
    [pages]. *)
Definition entries_of_pages (pages : list (list department_info)) (p : nat)
  : list department_info :=
  default [] (pages !! (p - 1)%nat).

Module Sample2.
Import Sample.

(** A row of a department that has no cell for its level. *)
Definition no_level_row : tag :=
  node [(".tbl-content-name a",
          [link "Chemistry" "https://sinta.test/departments/profile/404/UNIV/DDD"]);
        (".tbl-content-meta-num", [leaf "47201"])].

Definition documents2 : list (string * tag) :=
  [("listing-1", listing_page [physics; biology]);
   ("listing-2", listing_page [geology]);
   ("broken", listing_page [geology; no_level_row; physics]);
   ("twice", listing_page [physics; physics]);
   ("listing-3", listing_page [])].

(** A site whose listing has rows on every page. *)
Definition endless : env :=
  {| domain := "https://sinta.test";
     home := "/home/user";
     web := λ _, Some (ok "listing-2");
     BeautifulSoup := λ body, default blank_page (assoc body documents2);
     str_lower := lower;
     cast := λ s, Returns (VStr s);
     query_user := λ _, Returns None;
     array_str := print_array;
     sinta_affiliation_requests := profile_request;
     sinta_affiliation_code := λ _, Ok "001028";
     schedule := reverse |}.

Definition site2 : list (string * Response) :=
  [("https://sinta.test/affiliations/departments/407/001028?page=1", ok "listing-1");
   ("https://sinta.test/affiliations/departments/407/001028?page=2", ok "broken");
   ("https://sinta.test/affiliations/departments/408/001028?page=1", ok "listing-1");
   ("https://sinta.test/affiliations/departments/409/001028?page=1", ok "listing-3");
   ("https://sinta.test/affiliations/departments/410/001028?page=1", ok "twice");
   ("https://sinta.test/affiliations/departments/410/001028?page=2", ok "listing-3")].

(** Affiliation 407 has a broken row on its second page, the second page of
    affiliation 408 does not come back, affiliation 409 has no department,
    and affiliation 410 lists one department twice. *)
Definition E2 : env :=
  {| domain := "https://sinta.test";
     home := "/home/user";
     web := λ url, assoc url site2;
     BeautifulSoup := λ body, default blank_page (assoc body documents2);
     str_lower := lower;
     cast := λ s, Returns (VStr s);
     query_user := λ _, Returns None;
     array_str := print_array;
     sinta_affiliation_requests := profile_request;
     sinta_affiliation_code := λ _, Ok "001028";
     schedule := reverse |}.

End Sample2.

(** What the worker of a department needs of a page: a heading, a location,
    and a first link of the profile with its address, of which [cast]
    accepts the last part. *)
Definition department_page_ok (E : env) (soup : tag) : Prop :=
  select ".univ-name > h3" soup ≠ []
  ∧ select ".affil-loc" soup ≠ []
  ∧ ∃ a rest href last,
      select ".meta-profile > a" soup = a :: rest
      ∧ attr "href" a = Ok href
      ∧ getitem_last (Py.split "/" href) = Ok last
      ∧ is_ok (call (cast E last)).


(** The keys of the record of an author, in their order. *)
Definition author_keys : list string :=
  ["id"; "name"; "url"; "affiliation"; "department"; "subjects"; "score";
   "image_url"; "google_scholar_id"] ++ Author.stat_names.

(** The profile of an author with an avatar whose address names a user. *)
Module Sample3.
Import Sample.

Definition avatar : tag :=
  Tag "" [("src", "https://scholar.test/citations?user=abc123")] (λ _, []).



Definition author_page_avatar : tag :=
  node [("h3 > a", [leaf " Alice "]);
        (".meta-profile a",
          [link "Universitas A" "https://sinta.test/affiliations/profile/404";
           leaf "Physics"]);
        (".subject-list a", [leaf "Optics"]);
        (".stat-profile .pr-num", [leaf "10"; leaf "5"; leaf "8"; leaf "4"]);
        (".stat-table > tbody > tr", replicate 6 stat_row);
        ("img[alt=avatar]", [avatar])].

Definition E3 : env :=
  {| domain := "https://sinta.test";
     home := "/home/user";
     web := λ url, assoc url site;
     BeautifulSoup := λ body, default blank_page (assoc body documents);
     str_lower := lower;
     cast := λ s, Returns (VStr s);
     query_user := λ u, if decide (u = "https://scholar.test/citations?user=abc123")
                        then Returns (Some "abc123")
                        else if decide (u = "http://[")
                             then Raises (ValueError "Invalid IPv6 URL")
                             else Returns None;
     array_str := print_array;
     sinta_affiliation_requests := profile_request;
     sinta_affiliation_code := λ _, Ok "001028";
     schedule := reverse |}.

End Sample3.

(** The character [sep] does not occur in [s]. *)
Fixpoint sep_free (sep : ascii) (s : string) : bool :=
  match s with
  | EmptyString => true
  | String c s' => negb (Ascii.eqb c sep) && sep_free sep s'
  end.

(** The entry that a row gives, if it gives one. *)
Definition entry_of_row (E : env) (affiliation : affiliation_info) (row : tag)
  : option department_info :=
  match Department.parse_row E affiliation row with
  | Ok (Some d) => Some d
  | _ => None
  end.

(** The block about the affiliation that a page of the listing must have:
    the element of the university with its link and the address of the link,
    its abbreviation, its location, and a line of codes of at least seven
    words. *)
Definition header_ok (soup : tag) : Prop :=
  ∃ info a code,
    select_one ".univ-name" soup = Some info
    ∧ select_one "h3 a" info = Some a
    ∧ is_ok (attr "href" a)
    ∧ is_Some (select_one ".affil-abbrev" info)
    ∧ is_Some (select_one ".affil-loc" info)
    ∧ select_one ".affil-code" info = Some code
    ∧ (7 ≤ length (Py.split " " (Py.strip (text code))))%nat.
(** * Properties *)

(** ** Results that are always there *)

Lemma finished_Ok {A} (a : A) : finished (Ok a).
Proof. discriminate. Qed.

Lemma finished_Raise {A} e : finished (@Raise A e).
Proof. discriminate. Qed.

Lemma finished_rbind {A B} (r : result A) (k : A → result B) :
  finished r → (∀ a, finished (k a)) → finished (rbind r k).
Proof. unfold finished. destruct r; simpl; [auto|discriminate|tauto]. Qed.

Lemma finished_getitem {A} (l : list A) i : finished (getitem l i).
Proof. unfold getitem. destruct (l !! i); discriminate. Qed.

Lemma finished_getitem_last {A} (l : list A) : finished (getitem_last l).
Proof. unfold getitem_last. destruct (last l); discriminate. Qed.

Lemma finished_getitem_last2 {A} (l : list A) : finished (getitem_last2 l).
Proof. unfold getitem_last2. destruct (reverse l !! 1%nat); discriminate. Qed.

Lemma finished_attr name0 t : finished (attr name0 t).
Proof. unfold attr. destruct (list_find _ _) as [[? ?]|]; discriminate. Qed.

Lemma finished_not_none {A} (o : option A) : finished (not_none o).
Proof. destruct o; discriminate. Qed.

Lemma finished_call {A} (r : answer A) : finished (call r).
Proof. destruct r; discriminate. Qed.

Lemma finished_comprehension {A B} (f : A → result B) l :
  (∀ x, finished (f x)) → finished (comprehension f l).
Proof.
  intros Hf. induction l as [|x l IH]; simpl; [discriminate|].
  apply finished_rbind; [apply Hf|]. intros y.
  apply finished_rbind; [apply IH|]. discriminate.
Qed.

Create HintDb finished.
#[export] Hint Resolve finished_Ok finished_Raise finished_getitem
  finished_getitem_last finished_getitem_last2 finished_attr finished_not_none
  finished_call : finished.

Ltac finish :=
  repeat first
    [ progress eauto with finished
    | apply finished_rbind; [|intros ?]
    | apply finished_comprehension; intros ?
    | match goal with |- finished (match ?x with _ => _ end) => destruct x end
    | match goal with |- finished (if ?x then _ else _) => destruct x end
    | match goal with |- finished (let '(_, _) := ?x in _) => destruct x end ].

(** Splits a successful chain of steps into its steps. *)
Ltac steps H :=
  repeat match type of H with
    | rbind ?e _ = Ok _ =>
        let x := fresh "x" in
        let Hx := fresh "Hx" in
        destruct e as [x| |] eqn:Hx; simpl in H; [|discriminate H..]
    end.

(** ** The dispatcher *)

Section dispatch.
Context {K : Type} (E : env).
Context (worker : ident → list value → K → M (list value)) (kwargs : K).
Context (url_of : ident → string) (outcome : ident → result value).
Context (Hworker : one_request worker kwargs url_of outcome).

Lemma produced_succeeds order :
  Forall2 (λ id r, outcome id = Ok r) (filter (λ id, succeeds outcome id) order)
    (produced outcome order).
Proof.
  induction order as [|id order IH]; [constructor|].
  unfold produced in *. simpl.
  destruct (outcome id) as [r|e|] eqn:Ho.
  - rewrite filter_cons_True by (unfold succeeds; by rewrite Ho).
    constructor; auto.
  - rewrite filter_cons_False by (unfold succeeds; rewrite Ho; simpl; tauto).
    done.
  - rewrite filter_cons_False by (unfold succeeds; rewrite Ho; simpl; tauto).
    done.
Qed.

Lemma filter_succeeds_all order :
  Forall (λ id, succeeds outcome id) order →
  filter (λ id, succeeds outcome id) order = order.
Proof.
  induction 1 as [|id order Hid _ IH]; [done|].
  rewrite filter_cons_True by done. by rewrite IH.
Qed.

Lemma length_produced order :
  (length (produced outcome order) ≤ length order)%nat.
Proof.
  induction order as [|id order IH]; simpl; [lia|].
  unfold produced in *; simpl. destruct (outcome id); simpl; lia.
Qed.

Lemma join_spec order worker_result w :
  join worker kwargs order worker_result w
  = (Ok (worker_result ++ produced outcome order),
     sent_all (url_of <$> order) w).
Proof using Hworker.
  destruct Hworker as [Hw Hf]. revert worker_result w.
  induction order as [|id order IH]; intros acc w; simpl.
  - unfold ret, sent_all. rewrite !app_nil_r. by destruct w.
  - rewrite Hw. specialize (Hf id). unfold produced, appended; simpl.
    destruct (outcome id) as [r|e|]; simpl; [| |done].
    + rewrite IH. unfold sent_all, sent. simpl. by rewrite <- !app_assoc.
    + rewrite IH. unfold sent_all, sent. simpl. by rewrite <- !app_assoc.
Qed.

Lemma run_thread_spec id_list w :
  run_thread E worker id_list kwargs w
  = (Ok (produced outcome (schedule E id_list)),
     sent_all (url_of <$> schedule E id_list) w).
Proof using Hworker. unfold run_thread. by rewrite join_spec. Qed.

Lemma format_output_recognized result output_format w :
  recognized output_format →
  ∃ out, format_output result output_format w = (Ok out, w)
         ∧ records out = result.
Proof.
  intros Hr. unfold format_output.
  destruct (decide (output_format = "dict")).
  { destruct result as [|r [|r' l]]; eexists; split; reflexivity. }
  destruct (decide (output_format = "list")); [eexists; split; reflexivity|].
  destruct (decide (output_format = "dataframe")); [eexists; split; reflexivity|].
  by destruct Hr as [|[|]].
Qed.

Lemma format_output_unrecognized result output_format w :
  ¬ recognized output_format →
  format_output result output_format w
  = (Raise (ConfigurationError output_format), w).
Proof.
  intros Hr. unfold format_output, recognized in *.
  repeat case_decide; tauto || reflexivity.
Qed.

Lemma format_output_world result output_format w :
  (format_output result output_format w).2 = w.
Proof.
  unfold format_output. repeat case_decide; try reflexivity.
  by destruct result as [|r [|r' l]].
Qed.

Lemma compact_list_id l : Forall (λ v, v ≠ VNone) l → compact_list l = l.
Proof.
  intros H. unfold compact_list. induction H as [|v l Hv _ IH]; [done|].
  rewrite filter_cons_True by done. by rewrite IH.
Qed.

Lemma dispatch_recognized id_list output_format w :
  recognized output_format →
  ∃ out,
    dispatch E worker kwargs id_list output_format w
    = (Ok out, sent_all (url_of <$> schedule E id_list) w)
    ∧ records out = compact_list (produced outcome (schedule E id_list)).
Proof using Hworker.
  intros Hr. unfold dispatch, bind. rewrite run_thread_spec.
  edestruct format_output_recognized as (out & -> & Hout); [done|].
  exists out. split; [reflexivity|done].
Qed.

Lemma dispatch_unrecognized id_list output_format w :
  ¬ recognized output_format →
  dispatch E worker kwargs id_list output_format w
  = (Raise (ConfigurationError output_format),
     sent_all (url_of <$> schedule E id_list) w).
Proof using Hworker.
  intros Hr. unfold dispatch, bind. rewrite run_thread_spec.
  by rewrite format_output_unrecognized.
Qed.

Lemma dispatch_world id_list output_format w :
  (dispatch E worker kwargs id_list output_format w).2
  = sent_all (url_of <$> schedule E id_list) w.
Proof using Hworker.
  unfold dispatch, bind. rewrite run_thread_spec.
  apply format_output_world.
Qed.

End dispatch.

(** ** The two workers *)

Lemma author_parse_finished E author_id url0 soup :
  finished (Author.parse E author_id url0 soup).
Proof. unfold Author.parse, Author.get_user_id. finish. Qed.

Lemma department_parse_finished E department_id url0 soup :
  finished (Department.parse E department_id url0 soup).
Proof. unfold Department.parse. finish. Qed.

Lemma author_worker_one_request E :
  one_request (Author.worker E) () (author_url E) (author_outcome E).
Proof.
  split.
  - intros id acc w. unfold Author.worker, bind, get, author_outcome, lift, ret.
    fold (author_url E id). destruct (web E (author_url E id)) as [html|]; [|done].
    unfold appended. by destruct (Author.parse _ _ _ _).
  - intros id. unfold author_outcome.
    destruct (web E _); [apply author_parse_finished|discriminate].
Qed.

Lemma department_worker_one_request E kw :
  one_request (Department.worker E) kw (department_url E kw) (department_outcome E kw).
Proof.
  split.
  - intros id acc w.
    unfold Department.worker, bind, get, department_outcome, lift, ret.
    fold (department_url E kw id).
    destruct (web E (department_url E kw id)) as [html|]; [|done].
    unfold appended. by destruct (Department.parse _ _ _ _).
  - intros id. unfold department_outcome.
    destruct (web E _); [apply department_parse_finished|discriminate].
Qed.

(** The record of a worker carries the identifier given to the worker. *)
Lemma author_parse_id E author_id url0 soup r :
  Author.parse E author_id url0 soup = Ok r →
  field "id" r = Some (of_ident author_id) ∧ r ≠ VNone.
Proof.
  unfold Author.parse. intros H.
  repeat match goal with
    | H' : rbind ?e _ = Ok _ |- _ =>
        destruct e eqn:?; simpl in H'; [|discriminate H'..]
    | H' : Ok _ = Ok _ |- _ => injection H' as <-
    end.
  split; [reflexivity|discriminate].
Qed.

Lemma department_parse_id E department_id url0 soup r :
  Department.parse E department_id url0 soup = Ok r →
  field "id" r = Some (of_ident department_id) ∧ r ≠ VNone.
Proof.
  unfold Department.parse. intros H. steps H.
  injection H as <-. split; [reflexivity|discriminate].
Qed.

Lemma author_outcome_id E author_id r :
  author_outcome E author_id = Ok r →
  field "id" r = Some (of_ident author_id) ∧ r ≠ VNone.
Proof.
  unfold author_outcome. destruct (web E _); [|discriminate].
  apply author_parse_id.
Qed.

Lemma department_outcome_id E kw department_id r :
  department_outcome E kw department_id = Ok r →
  field "id" r = Some (of_ident department_id) ∧ r ≠ VNone.
Proof.
  unfold department_outcome. destruct (web E _); [|discriminate].
  apply department_parse_id.
Qed.

Lemma author_dispatch E author_ids output_format :
  Author.author E author_ids output_format
  = dispatch E (Author.worker E) () (listify author_ids) output_format.
Proof. reflexivity. Qed.

Lemma sample_joins_all : joins_all Sample.E.
Proof. intros l. apply reverse_Permutation. Qed.

Lemma sample_recognized : recognized "list".
Proof. right; left; reflexivity. Qed.

Lemma sample_unrecognized : ¬ recognized "xml".
Proof. intros [H|[H|H]]; discriminate H. Qed.

Section records.
Context (outcome : ident → result value).
Context (Hid : ∀ id r, outcome id = Ok r →
                       field "id" r = Some (of_ident id) ∧ r ≠ VNone).

Lemma produced_not_none order :
  Forall (λ v, v ≠ VNone) (produced outcome order).
Proof using Hid.
  induction order as [|id order IH]; [constructor|].
  unfold produced in *; simpl.
  destruct (outcome id) as [r|e|] eqn:Ho; simpl; auto.
  constructor; [by apply (Hid id)|done].
Qed.

Lemma compact_produced order :
  compact_list (produced outcome order) = produced outcome order.
Proof using Hid. apply compact_list_id, produced_not_none. Qed.

(** Each record comes from the worker of one identifier that succeeds,
    and carries that identifier. *)
Lemma produced_records order :
  Forall2 (λ id r, outcome id = Ok r ∧ field "id" r = Some (of_ident id))
    (filter (λ id, succeeds outcome id) order) (produced outcome order).
Proof using Hid.
  eapply Forall2_impl; [apply produced_succeeds|].
  intros id r Ho. split; [done|by apply (Hid id)].
Qed.
End records.

(** ** One record per identifier *)

(** C1. When the fetch and the parse of every identifier succeed, [author]
    and the dispatch of the workers of departments return one record per
    identifier, and the [id] of each record is the identifier that was given
    to the worker that made it. *)
Theorem dispatch_all_succeed E author_ids ids kw output_format w :
  joins_all E →
  recognized output_format →
  Forall (λ id, succeeds (author_outcome E) id) (listify author_ids) →
  Forall (λ id, succeeds (department_outcome E kw) id) ids →
  (∃ out,
     (Author.author E author_ids output_format w).1 = Ok out
     ∧ length (records out) = length (listify author_ids)
     ∧ Forall2 (λ id r, author_outcome E id = Ok r
                        ∧ field "id" r = Some (of_ident id))
         (schedule E (listify author_ids)) (records out))
  ∧ (∃ out,
       (dispatch E (Department.worker E) kw ids output_format w).1 = Ok out
       ∧ length (records out) = length ids
       ∧ Forall2 (λ id r, department_outcome E kw id = Ok r
                          ∧ field "id" r = Some (of_ident id))
           (schedule E ids) (records out)).
Proof.
  intros Hjoin Hmode Ha Hd. split.
  - rewrite author_dispatch.
    destruct (dispatch_recognized E _ _ _ _ (author_worker_one_request E)
                (listify author_ids) output_format w Hmode) as (out & -> & Hout).
    rewrite compact_produced in Hout by apply author_outcome_id.
    assert (Forall2 (λ id r, author_outcome E id = Ok r
                             ∧ field "id" r = Some (of_ident id))
              (schedule E (listify author_ids)) (records out)) as HF.
    { rewrite Hout.
      rewrite <- (filter_succeeds_all (author_outcome E)
                    (schedule E (listify author_ids))) at 1
        by (by rewrite (Hjoin (listify author_ids))).
      apply produced_records, author_outcome_id. }
    exists out. split; [done|]. split; [|done].
    rewrite <- (Forall2_length _ _ _ HF). by rewrite (Hjoin (listify author_ids)).
  - destruct (dispatch_recognized E _ _ _ _ (department_worker_one_request E kw)
                ids output_format w Hmode) as (out & -> & Hout).
    rewrite compact_produced in Hout by apply department_outcome_id.
    assert (Forall2 (λ id r, department_outcome E kw id = Ok r
                             ∧ field "id" r = Some (of_ident id))
              (schedule E ids) (records out)) as HF.
    { rewrite Hout.
      rewrite <- (filter_succeeds_all (department_outcome E kw) (schedule E ids)) at 1
        by (by rewrite (Hjoin ids)).
      apply produced_records, department_outcome_id. }
    exists out. split; [done|]. split; [|done].
    rewrite <- (Forall2_length _ _ _ HF). by rewrite (Hjoin ids).
Qed.

Lemma dispatch_all_succeed_witness :
  let kw := kwargs_of (IInt 404) Sample.abc in
  (∃ out,
     (Author.author Sample.E (Many [IInt 1; IInt 4]) "list" Sample.w0).1 = Ok out
     ∧ length (records out) = 2%nat
     ∧ Forall2 (λ id r, author_outcome Sample.E id = Ok r
                        ∧ field "id" r = Some (of_ident id))
         [IInt 4; IInt 1] (records out))
  ∧ (∃ out,
       (dispatch Sample.E (Department.worker Sample.E) kw [IStr "aaa"; IStr "ccc"]
          "list" Sample.w0).1 = Ok out
       ∧ length (records out) = 2%nat
       ∧ Forall2 (λ id r, department_outcome Sample.E kw id = Ok r
                          ∧ field "id" r = Some (of_ident id))
           [IStr "ccc"; IStr "aaa"] (records out)).
Proof.
  intros kw.
  apply (dispatch_all_succeed Sample.E (Many [IInt 1; IInt 4])
           [IStr "aaa"; IStr "ccc"] kw "list" Sample.w0).
  - exact sample_joins_all.
  - exact sample_recognized.
  - repeat constructor.
  - repeat constructor.
Defined.

(** ** Workers that fail *)




(** Of the authors 1, 2 and 3 only author 1 has a record. *)
Example author_isolation_sample :
  ∃ r, (Author.author Sample.E (Many [IInt 1; IInt 2; IInt 3]) "list" Sample.w0).1
       = Ok (Sequence [r])
       ∧ field "id" r = Some (VInt 1).
Proof. eexists. split; vm_compute; reflexivity. Qed.

(** ** The mode of the output *)

(** C6, as it is written: with the mode "xml" the request for author 1 is
    sent before the error is raised. *)
Lemma mode_checked_first_fails :
  ¬ mode_checked_first Sample.E (One (IInt 1)) "xml" Sample.w0.
Proof.
  intros H. destruct (H sample_unrecognized) as [_ Hlog].
  vm_compute in Hlog. discriminate Hlog.
Qed.

(** C7. With the mode "dict" the formatter returns the record itself when
    there is exactly one and the whole list otherwise; with the mode "list"
    it returns the list, also when it has one element. *)
Theorem format_output_dict_list result r r' w :
  format_output result "dict" w
  = (Ok (match result with [r] => Bare r | _ => Sequence result end), w)
  ∧ format_output [r] "dict" w = (Ok (Bare r), w)
  ∧ format_output [] "dict" w = (Ok (Sequence []), w)
  ∧ format_output (r :: r' :: result) "dict" w
    = (Ok (Sequence (r :: r' :: result)), w)
  ∧ format_output result "list" w = (Ok (Sequence result), w)
  ∧ format_output [r] "list" w = (Ok (Sequence [r]), w).
Proof.
  repeat split; try reflexivity.
  by destruct result as [|r0 [|r1 l]].
Qed.

(** ** The crawl *)

Lemma parse_rows_app E affiliation rows worker_result :
  Department.parse_rows E affiliation rows worker_result
  = try entries ← Department.parse_rows E affiliation rows [];
    Ok (worker_result ++ entries).
Proof.
  revert worker_result. induction rows as [|row rows IH]; intros acc; simpl.
  { by rewrite app_nil_r. }
  destruct (Department.parse_row E affiliation row) as [[d|]|e|]; simpl; try done.
  rewrite (IH (acc ++ [d])), (IH [d]).
  destruct (Department.parse_rows E affiliation rows []); simpl; try done.
  by rewrite <- app_assoc.
Qed.

(** One turn of the loop. *)
Lemma crawl_S E fuel affiliation_id code page worker_result w :
  let url0 := Department.page_url E affiliation_id code (Z.of_nat page) in
  Department.crawl E (S fuel) affiliation_id code (Z.of_nat page) worker_result w
  = match page_soup E affiliation_id code page with
    | None => (Raise (ConnectionError url0), sent url0 w)
    | Some soup =>
        match Department.parse_affiliation soup with
        | Ok affiliation =>
            match listing soup with
            | [] => (Ok worker_result, sent url0 w)
            | _ :: _ =>
                match Department.parse_rows E affiliation (listing soup) worker_result with
                | Ok worker_result' =>
                    Department.crawl E fuel affiliation_id code (Z.of_nat (S page))
                      worker_result' (sent url0 w)
                | Raise e => (Raise e, sent url0 w)
                | Unfinished => (Unfinished, sent url0 w)
                end
            end
        | Raise e => (Raise e, sent url0 w)
        | Unfinished => (Unfinished, sent url0 w)
        end
    end.
Proof.
  intros url0. cbn [Department.crawl]. fold url0.
  unfold bind, get, page_soup, listing, lift, ret, sent. fold url0.
  destruct (web E url0) as [html|]; [|reflexivity]. cbn [fmap option_fmap option_map].
  destruct (Department.parse_affiliation _) as [a|e|]; try reflexivity.
  destruct (select _ _) as [|row rows] eqn:Hrows; [reflexivity|].
  destruct (Department.parse_rows _ _ _ _); try reflexivity.
  by replace (Z.of_nat page + 1) with (Z.of_nat (S page)) by lia.
Qed.

Lemma page_urls_S E affiliation_id code n :
  page_urls E affiliation_id code (S n)
  = page_urls E affiliation_id code n
    ++ [Department.page_url E affiliation_id code (Z.of_nat (S n))].
Proof. unfold page_urls. rewrite seq_S, fmap_app. reflexivity. Qed.

Lemma sent_sent_all url0 urls w :
  sent_all urls (sent url0 w) = sent_all (url0 :: urls) w.
Proof. unfold sent_all, sent. simpl. by rewrite <- app_assoc. Qed.

Section crawl.
Context (E : env) (affiliation_id : ident) (code : string).
Context (entries : nat → list department_info).

Lemma crawl_full_pages k : ∀ page fuel worker_result w,
  full_pages E affiliation_id code entries page k →
  Department.crawl E (k + fuel) affiliation_id code (Z.of_nat page) worker_result w
  = Department.crawl E fuel affiliation_id code (Z.of_nat (page + k))
      (worker_result ++ concat (entries <$> seq page k))
      (sent_all
         ((λ p, Department.page_url E affiliation_id code (Z.of_nat p))
            <$> seq page k) w).
Proof.
  induction k as [|k IH]; intros page fuel acc w Hfull.
  { simpl. rewrite Nat.add_0_r, app_nil_r. unfold sent_all.
    rewrite app_nil_r. by destruct w. }
  destruct (Hfull page ltac:(lia)) as (rows & Hne & soup & a & Hs & Ha & Hl & Hr).
  change (S k + fuel)%nat with (S (k + fuel)). rewrite crawl_S, Hs, Ha, Hl.
  destruct rows as [|row rows]; [done|].
  rewrite parse_rows_app, Hr. simpl rbind. cbv beta iota.
  rewrite IH by (intros p Hp; apply Hfull; lia).
  rewrite sent_sent_all. simpl seq. rewrite !fmap_cons. simpl concat.
  rewrite <- app_assoc. by replace (S page + k)%nat with (page + S k)%nat by lia.
Qed.
End crawl.

Lemma sent_all_sent urls url0 w :
  sent url0 (sent_all urls w) = sent_all (urls ++ [url0]) w.
Proof. unfold sent_all, sent. simpl. by rewrite <- app_assoc. Qed.

Lemma sent_all_app urls urls' w :
  sent_all urls' (sent_all urls w) = sent_all (urls ++ urls') w.
Proof. unfold sent_all. simpl. by rewrite <- app_assoc. Qed.

Lemma fetch_all_department_unfold E fuel affiliation_id w :
  Department.fetch_all_department E fuel affiliation_id w
  = match sinta_affiliation_code E affiliation_id with
    | Ok code =>
        Department.crawl E fuel affiliation_id code 1 []
          (sent_all (sinta_affiliation_requests E affiliation_id) w)
    | Raise e => (Raise e, sent_all (sinta_affiliation_requests E affiliation_id) w)
    | Unfinished =>
        (Unfinished, sent_all (sinta_affiliation_requests E affiliation_id) w)
    end.
Proof.
  unfold Department.fetch_all_department, Department.sinta_affiliation, bind.
  fold (sent_all (sinta_affiliation_requests E affiliation_id) w).
  by destruct (sinta_affiliation_code E affiliation_id).
Qed.

(** The crawl up to page [n], the first page that the pages before it do not
    account for. *)
Lemma fetch_all_department_full_pages E fuel affiliation_id code entries n w :
  sinta_affiliation_code E affiliation_id = Ok code →
  full_pages E affiliation_id code entries 1 (n - 1) →
  (1 ≤ n ≤ fuel)%nat →
  Department.fetch_all_department E fuel affiliation_id w
  = Department.crawl E (S (fuel - n)) affiliation_id code (Z.of_nat n)
      (entries_upto entries (n - 1))
      (sent_all (crawl_urls E affiliation_id code (n - 1)) w).
Proof.
  intros Hcode Hfull Hn. rewrite fetch_all_department_unfold, Hcode.
  replace fuel with ((n - 1) + S (fuel - n))%nat at 1 by lia.
  change 1 with (Z.of_nat 1).
  rewrite (crawl_full_pages E affiliation_id code entries) by done.
  rewrite sent_all_app. by replace (1 + (n - 1))%nat with n by lia.
Qed.

Lemma crawl_urls_S E affiliation_id code n :
  crawl_urls E affiliation_id code (S n)
  = crawl_urls E affiliation_id code n
    ++ [Department.page_url E affiliation_id code (Z.of_nat (S n))].
Proof. unfold crawl_urls. by rewrite page_urls_S, app_assoc. Qed.

(** ** Where the crawl stops *)

(** C3, as it is written: the first page of affiliation 405 has one row,
    which is not the row of a department, and so yields no entry; the crawl
    goes on to the pages 2 and 3 and returns the entry of page 2. *)
Lemma crawl_as_stated_fails :
  ¬ crawl_as_stated Sample.E 5 (IInt 405) Sample.w0.
Proof.
  intros H. specialize (H "001028" 1%nat (λ _, [])).
  assert (yields Sample.E (IInt 405) "001028" 1 []) as Hy.
  { exists [Sample.authors_row]. eexists _, _.
    split; [reflexivity|]. split; [reflexivity|]. split; reflexivity. }
  specialize (H eq_refl ltac:(intros; lia) Hy ltac:(lia)).
  vm_compute in H. discriminate H.
Qed.

(** C3, amended.  When the lookup of the affiliation gives its code, the
    pages 1 to [n - 1] of the listing come back, each with its block about
    the affiliation, with at least one row and with rows that are all read
    without an exception, and page [n] comes back with its block and without
    a row, then the crawl, after the requests of the lookup, starts at page
    1, fetches the pages 1 to [n] one after the other, and stops at page
    [n], the first page that has no row in its listing; it returns the
    entries of the pages before that page, in their order.  A page whose
    rows are all passed over has rows: it yields no entry and does not stop
    the crawl. *)
Theorem crawl_stops_without_rows E fuel affiliation_id code entries n w :
  sinta_affiliation_code E affiliation_id = Ok code →
  full_pages E affiliation_id code entries 1 (n - 1) →
  listed E affiliation_id code n [] [] →
  (1 ≤ n ≤ fuel)%nat →
  Department.fetch_all_department E fuel affiliation_id w
  = (Ok (entries_upto entries (n - 1)),
     sent_all (crawl_urls E affiliation_id code n) w).
Proof.
  intros Hcode Hfull (soup & a & Hs & Ha & Hl & _) Hn.
  rewrite (fetch_all_department_full_pages E fuel affiliation_id code entries n)
    by done.
  rewrite crawl_S, Hs, Ha, Hl. rewrite sent_all_sent.
  destruct n as [|k]; [lia|]. replace (S k - 1)%nat with k by lia.
  by rewrite crawl_urls_S.
Qed.

Lemma sample_full_pages :
  full_pages Sample.E (IInt 404) "001028"
    (λ p, if decide (p = 1%nat)
          then [Sample.entry "45201" "Physics" "aaa"; Sample.entry "46201" "Biology" "bbb"]
          else [Sample.entry "34201" "Geology" "ccc"]) 1 2.
Proof.
  intros p Hp. assert (p = 1 ∨ p = 2)%nat as [-> | ->] by lia.
  - exists [Sample.physics; Sample.biology]. split; [done|].
    eexists _, _. split; [reflexivity|]. split; [reflexivity|].
    split; [reflexivity|]. vm_compute. reflexivity.
  - exists [Sample.geology]. split; [done|].
    eexists _, _. split; [reflexivity|]. split; [reflexivity|].
    split; [reflexivity|]. vm_compute. reflexivity.
Qed.

Lemma sample_last_page : listed Sample.E (IInt 404) "001028" 3 [] [].
Proof.
  eexists _, _. split; [reflexivity|]. split; [reflexivity|]. split; reflexivity.
Qed.

Lemma crawl_stops_without_rows_witness :
  Department.fetch_all_department Sample.E 5 (IInt 404) Sample.w0
  = (Ok [Sample.entry "45201" "Physics" "aaa"; Sample.entry "46201" "Biology" "bbb";
         Sample.entry "34201" "Geology" "ccc"],
     sent_all
       ["https://sinta.test/affiliations/profile/404";
        "https://sinta.test/affiliations/departments/404/001028?page=1";
        "https://sinta.test/affiliations/departments/404/001028?page=2";
        "https://sinta.test/affiliations/departments/404/001028?page=3"]
       Sample.w0).
Proof.
  apply (crawl_stops_without_rows Sample.E 5 (IInt 404) "001028" _ 3 Sample.w0
           eq_refl sample_full_pages sample_last_page).
  lia.
Defined.

(** C8. On every page that is fetched the block about the affiliation is
    read before the rows are looked at.  When the pages before page [n] have
    rows and page [n] comes back without a whole block, the call raises the
    exception of the block, whether page [n] has rows or not, after the
    requests of the lookup of the affiliation and those for the pages 1 to
    [n]; when page [n] has no row, the call returns if and only if page [n]
    has its block. *)
Theorem header_read_before_rows E fuel affiliation_id code entries n soup w :
  sinta_affiliation_code E affiliation_id = Ok code →
  full_pages E affiliation_id code entries 1 (n - 1) →
  page_soup E affiliation_id code n = Some soup →
  (1 ≤ n ≤ fuel)%nat →
  (∀ e, Department.parse_affiliation soup = Raise e →
        Department.fetch_all_department E fuel affiliation_id w
        = (Raise e, sent_all (crawl_urls E affiliation_id code n) w))
  ∧ (listing soup = [] →
     is_ok (Department.fetch_all_department E fuel affiliation_id w).1
     = is_ok (Department.parse_affiliation soup)).
Proof.
  intros Hcode Hfull Hs Hn.
  rewrite (fetch_all_department_full_pages E fuel affiliation_id code entries n)
    by done.
  rewrite crawl_S, Hs. split.
  - intros e ->. rewrite sent_all_sent.
    destruct n as [|k]; [lia|]. replace (S k - 1)%nat with k by lia.
    by rewrite crawl_urls_S.
  - intros ->. by destruct (Department.parse_affiliation soup).
Qed.

Lemma header_read_before_rows_witness :
  Department.parse_affiliation
    (Sample.node [(".content-list-no-filter .d-item", [])]) = Raise AttributeError
  ∧ Department.fetch_all_department Sample.E 5 (IInt 406) Sample.w0
    = (Raise AttributeError,
       sent_all
         ["https://sinta.test/affiliations/profile/406";
          "https://sinta.test/affiliations/departments/406/001028?page=1";
          "https://sinta.test/affiliations/departments/406/001028?page=2"]
         Sample.w0).
Proof.
  split; [reflexivity|].
  refine (proj1 (header_read_before_rows Sample.E 5 (IInt 406) "001028"
                   (λ _, [Sample.entry "45201" "Physics" "aaa";
                           Sample.entry "46201" "Biology" "bbb"])
                   2 (Sample.node [(".content-list-no-filter .d-item", [])])
                   Sample.w0 eq_refl _ eq_refl _) AttributeError eq_refl).
  - intros p Hp. assert (p = 1%nat) as -> by lia.
    exists [Sample.physics; Sample.biology]. split; [done|].
    eexists _, _. split; [reflexivity|]. split; [reflexivity|].
    split; [reflexivity|]. vm_compute. reflexivity.
  - lia.
Defined.

(** ** The table and its cache *)

Lemma department_unfold E fuel department_ids affiliation_id output_format cache_path w :
  Department.department E fuel department_ids affiliation_id output_format cache_path w
  = match Department.load_table E fuel affiliation_id cache_path w with
    | (Ok df, w1) =>
        let subset := Department.select_rows df department_ids in
        match subset with
        | [] => (Raise (AssertionError
                          "No departments found for the given department IDs."), w1)
        | _ :: _ =>
            dispatch E (Department.worker E) (kwargs_of affiliation_id subset)
              (hashed_ids subset) output_format w1
        end
    | (Raise e, w1) => (Raise e, w1)
    | (Unfinished, w1) => (Unfinished, w1)
    end.
Proof.
  unfold Department.department. unfold bind at 1.
  destruct (Department.load_table E fuel affiliation_id cache_path w)
    as [[df|e|] w1]; try reflexivity.
  cbv zeta. destruct (Department.select_rows df department_ids) as [|r0 rows];
    reflexivity.
Qed.


Lemma crawl_world E fuel affiliation_id code : ∀ page worker_result w,
  ∃ urls,
    (Department.crawl E fuel affiliation_id code (Z.of_nat page) worker_result w).2
    = sent_all urls w.
Proof.
  induction fuel as [|fuel IH]; intros page acc w.
  { exists []. unfold sent_all. simpl. rewrite app_nil_r. by destruct w. }
  rewrite crawl_S.
  set (url0 := Department.page_url E affiliation_id code (Z.of_nat page)).
  assert (sent url0 w = sent_all [url0] w) as Hone by done.
  destruct (page_soup E affiliation_id code page) as [soup|]; [|by exists [url0]].
  destruct (Department.parse_affiliation soup) as [a|e|]; try by exists [url0].
  destruct (listing soup) as [|row rows]; [by exists [url0]|].
  destruct (Department.parse_rows E a (row :: rows) acc) as [acc'|e|];
    try by exists [url0].
  destruct (IH (S page) acc' (sent url0 w)) as [urls ->].
  exists (url0 :: urls). apply sent_sent_all.
Qed.

Lemma fetch_all_department_world E fuel affiliation_id w :
  ∃ urls,
    (Department.fetch_all_department E fuel affiliation_id w).2 = sent_all urls w.
Proof.
  rewrite fetch_all_department_unfold.
  destruct (sinta_affiliation_code E affiliation_id) as [code|e|];
    try by eexists.
  change 1 with (Z.of_nat 1).
  destruct (crawl_world E fuel affiliation_id code 1 []
              (sent_all (sinta_affiliation_requests E affiliation_id) w))
    as [urls ->].
  eexists. apply sent_all_app.
Qed.

Lemma sent_all_nil w : sent_all [] w = w.
Proof. unfold sent_all. rewrite app_nil_r. by destruct w. Qed.


(** What [department] does once it has its table. *)
Lemma department_loaded E fuel department_ids affiliation_id output_format
    cache_path w df w1 :
  Department.load_table E fuel affiliation_id cache_path w = (Ok df, w1) →
  let subset := Department.select_rows df department_ids in
  let kw := kwargs_of affiliation_id subset in
  Department.department E fuel department_ids affiliation_id output_format cache_path w
  = match subset with
    | [] => (Raise (AssertionError
                      "No departments found for the given department IDs."), w1)
    | _ :: _ =>
        dispatch E (Department.worker E) kw (hashed_ids subset) output_format w1
    end
  ∧ ((Department.department E fuel department_ids affiliation_id output_format
        cache_path w).2
     = sent_all (department_url E kw <$> schedule E (hashed_ids subset)) w1
     ∨ subset = []
       ∧ (Department.department E fuel department_ids affiliation_id output_format
            cache_path w).2 = w1).
Proof.
  intros Hload subset kw. subst kw subset.
  rewrite department_unfold, Hload. cbv zeta. split; [reflexivity|].
  destruct (Department.select_rows df department_ids) as [|r0 rows];
    [by right|left].
  apply (dispatch_world E _ _ _ _ (department_worker_one_request E _)).
Qed.


(** ** One crawl for two calls *)

Lemma load_table_cold_unfold E fuel affiliation_id cache_path w :
  fs w !! Department.cache_file E affiliation_id cache_path = None →
  Department.load_table E fuel affiliation_id cache_path w
  = match Department.fetch_all_department E fuel affiliation_id w with
    | (Ok l, w') =>
        match Department.from_dict_set_index l with
        | Ok df =>
            match Department.to_json
                    (Department.cache_file E affiliation_id cache_path) df w' with
            | (Ok _, w'') => (Ok df, w'')
            | (Raise e, w'') => (Raise e, w'')
            | (Unfinished, w'') => (Unfinished, w'')
            end
        | Raise e => (Raise e, w')
        | Unfinished => (Unfinished, w')
        end
    | (Raise e, w') => (Raise e, w')
    | (Unfinished, w') => (Unfinished, w')
    end.
Proof.
  intros Hcold. unfold Department.load_table, bind, Department.exists_.
  rewrite bool_decide_eq_false_2 by (rewrite Hcold; by intros [? ?]).
  destruct (Department.fetch_all_department E fuel affiliation_id w)
    as [[l|e|] w']; reflexivity.
Qed.





(** ** The rows of a call *)

Lemma select_rows_filter df department_ids :
  Department.select_rows df department_ids
  = filter (λ r, IStr (department_id r) ∈ listify department_ids) df.
Proof.
  unfold Department.select_rows, Department.isin.
  apply list_filter_iff. intros r. apply bool_decide_spec.
Qed.

Lemma elem_of_select_rows df department_ids r :
  r ∈ Department.select_rows df department_ids
  ↔ r ∈ df ∧ IStr (department_id r) ∈ listify department_ids.
Proof. rewrite select_rows_filter, list_elem_of_filter. tauto. Qed.

(** C5. The filter keeps exactly the rows of the table whose
    [department_id] is one of the given ids; when no row is kept [department]
    raises its assertion, and does not return an empty result. *)
Theorem row_filter E fuel department_ids affiliation_id output_format cache_path
    w df w1 :
  Department.load_table E fuel affiliation_id cache_path w = (Ok df, w1) →
  Department.select_rows df department_ids
  = filter (λ r, IStr (department_id r) ∈ listify department_ids) df
  ∧ (∀ r, r ∈ Department.select_rows df department_ids
          ↔ r ∈ df ∧ IStr (department_id r) ∈ listify department_ids)
  ∧ Department.department E fuel department_ids affiliation_id output_format
      cache_path w
    = match Department.select_rows df department_ids with
      | [] => (Raise (AssertionError
                        "No departments found for the given department IDs."), w1)
      | subset =>
          dispatch E (Department.worker E) (kwargs_of affiliation_id subset)
            (hashed_ids subset) output_format w1
      end.
Proof.
  intros Hload. split; [apply select_rows_filter|].
  split; [apply elem_of_select_rows|].
  destruct (department_loaded E fuel department_ids affiliation_id output_format
              cache_path w df w1 Hload) as [-> _].
  by destruct (Department.select_rows df department_ids).
Qed.

Lemma row_filter_witness :
  Department.select_rows Sample.abc (Many [IStr "A"; IStr "C"])
  = [Sample.entry "A" "Physics" "aaa"; Sample.entry "C" "Geology" "ccc"]
  ∧ Department.department Sample.E 0 (Many [IStr "Z"]) (IInt 404) "list" None
      Sample.w_abc
    = (Raise (AssertionError "No departments found for the given department IDs."),
       Sample.w_abc).
Proof.
  split.
  - destruct (row_filter Sample.E 0 (Many [IStr "A"; IStr "C"]) (IInt 404) "list"
                None Sample.w_abc Sample.abc Sample.w_abc eq_refl) as (-> & _).
    reflexivity.
  - destruct (row_filter Sample.E 0 (Many [IStr "Z"]) (IInt 404) "list"
                None Sample.w_abc Sample.abc Sample.w_abc eq_refl) as (_ & _ & ->).
    reflexivity.
Defined.

(** C6, amended.  A mode that is not recognized is reported by the formatter
    at the end of the call, after the requests: [author] has by then sent
    one request per identifier; and [department], once its table is loaded
    and the filter has selected at least one row, one request per row of the
    selection. *)
Theorem mode_checked_last E fuel author_ids department_ids affiliation_id
    output_format cache_path w :
  joins_all E →
  ¬ recognized output_format →
  (∃ order,
     order ≡ₚ listify author_ids
     ∧ Author.author E author_ids output_format w
       = (Raise (ConfigurationError output_format),
          sent_all (author_url E <$> order) w))
  ∧ (∀ df w1,
       Department.load_table E fuel affiliation_id cache_path w = (Ok df, w1) →
       Department.select_rows df department_ids ≠ [] →
       let subset := Department.select_rows df department_ids in
       ∃ order,
         order ≡ₚ hashed_ids subset
         ∧ Department.department E fuel department_ids affiliation_id
             output_format cache_path w
           = (Raise (ConfigurationError output_format),
              sent_all
                (department_url E (kwargs_of affiliation_id subset) <$> order) w1)).
Proof.
  intros Hjoin Hmode. split.
  - exists (schedule E (listify author_ids)). split; [apply Hjoin|].
    rewrite author_dispatch.
    by apply (dispatch_unrecognized E _ _ _ _ (author_worker_one_request E)).
  - intros df w1 Hload Hsub subset.
    exists (schedule E (hashed_ids subset)). split; [apply Hjoin|].
    destruct (department_loaded E fuel department_ids affiliation_id output_format
                cache_path w df w1 Hload) as [-> _].
    fold subset. destruct subset as [|r0 rows] eqn:Hs; [done|]. rewrite <- Hs.
    by apply (dispatch_unrecognized E _ _ _ _ (department_worker_one_request E _)).
Qed.

Lemma mode_checked_last_witness :
  (∃ order,
     order ≡ₚ [IInt 1; IInt 2]
     ∧ Author.author Sample.E (Many [IInt 1; IInt 2]) "xml" Sample.w0
       = (Raise (ConfigurationError "xml"),
          sent_all (author_url Sample.E <$> order) Sample.w0))
  ∧ (∃ order,
       order ≡ₚ [IStr "aaa"; IStr "ccc"]
       ∧ Department.department Sample.E 0 (Many [IStr "A"; IStr "C"]) (IInt 404)
           "xml" None Sample.w_abc
         = (Raise (ConfigurationError "xml"),
            sent_all
              (department_url Sample.E
                 (kwargs_of (IInt 404)
                    [Sample.entry "A" "Physics" "aaa";
                     Sample.entry "C" "Geology" "ccc"]) <$> order)
              Sample.w_abc)).
Proof.
  split.
  - exact (proj1 (mode_checked_last Sample.E 0 (Many [IInt 1; IInt 2])
                    (Many [IStr "A"; IStr "C"]) (IInt 404) "xml" None Sample.w0
                    sample_joins_all sample_unrecognized)).
  - apply (proj2 (mode_checked_last Sample.E 0 (Many [IInt 1; IInt 2])
                    (Many [IStr "A"; IStr "C"]) (IInt 404) "xml" None Sample.w_abc
                    sample_joins_all sample_unrecognized)
             Sample.abc Sample.w_abc).
    + reflexivity.
    + discriminate.
Defined.

(** ** The records of a lookup *)

Lemma format_output_Ok result output_format w out w2 :
  format_output result output_format w = (Ok out, w2) →
  records out = result ∧ w2 = w.
Proof.
  unfold format_output. repeat case_decide.
  - destruct result as [|r [|r' l]]; by intros [= <- <-].
  - by intros [= <- <-].
  - by intros [= <- <-].
  - discriminate.
Qed.

Lemma department_Ok E fuel department_ids affiliation_id output_format cache_path
    w df w1 out w2 :
  Department.load_table E fuel affiliation_id cache_path w = (Ok df, w1) →
  Department.department E fuel department_ids affiliation_id output_format
    cache_path w = (Ok out, w2) →
  let subset := Department.select_rows df department_ids in
  let kw := kwargs_of affiliation_id subset in
  records out = produced (department_outcome E kw) (schedule E (hashed_ids subset))
  ∧ w2 = sent_all (department_url E kw <$> schedule E (hashed_ids subset)) w1.
Proof.
  intros Hload Hdep subset kw. subst kw subset.
  destruct (department_loaded E fuel department_ids affiliation_id output_format
              cache_path w df w1 Hload) as [Heq _].
  rewrite Heq in Hdep. clear Heq.
  destruct (Department.select_rows df department_ids) as [|r0 rows];
    [discriminate|].
  unfold dispatch, bind in Hdep.
  rewrite (run_thread_spec E _ _ _ _ (department_worker_one_request E _)) in Hdep.
  apply format_output_Ok in Hdep as [Hrec ->].
  rewrite compact_produced in Hrec by apply department_outcome_id. done.
Qed.





Lemma select_rows_same_ids df ids ids' :
  (∀ id, id ∈ ids ↔ id ∈ ids') →
  Department.select_rows df (Many ids) = Department.select_rows df (Many ids').
Proof.
  intros H. rewrite !select_rows_filter. apply list_filter_iff.
  intros r. apply H.
Qed.

Lemma length_hashed_ids subset : length (hashed_ids subset) = length subset.
Proof. unfold hashed_ids. by rewrite !length_fmap. Qed.

(** C10. Ids that the caller gives more than once select a row once: the
    selection is a part of the table, in the order of the table, and is the
    selection of the ids without their repetitions; the whole call comes to
    the same as with these.  One request is sent per row of the selection,
    and no more records are returned than rows are selected. *)
Theorem duplicate_ids_select_once E fuel ids affiliation_id output_format
    cache_path w df w1 :
  joins_all E →
  Department.load_table E fuel affiliation_id cache_path w = (Ok df, w1) →
  let subset := Department.select_rows df (Many ids) in
  let call := Department.department E fuel (Many ids) affiliation_id output_format
                cache_path w in
  subset = Department.select_rows df (Many (remove_dups ids))
  ∧ subset `sublist_of` df
  ∧ call = Department.department E fuel (Many (remove_dups ids)) affiliation_id
             output_format cache_path w
  ∧ (∃ order,
       order ≡ₚ hashed_ids subset
       ∧ call.2
         = sent_all (department_url E (kwargs_of affiliation_id subset) <$> order) w1)
  ∧ (∀ out, call.1 = Ok out → (length (records out) ≤ length subset)%nat).
Proof.
  intros Hjoin Hload subset call.
  assert (subset = Department.select_rows df (Many (remove_dups ids))) as Hdups.
  { apply select_rows_same_ids. intros id. by rewrite elem_of_remove_dups. }
  split; [done|]. split.
  { unfold subset. rewrite select_rows_filter. apply sublist_filter. }
  split.
  { unfold call.
    destruct (department_loaded E fuel (Many ids) affiliation_id output_format
                cache_path w df w1 Hload) as [-> _].
    destruct (department_loaded E fuel (Many (remove_dups ids)) affiliation_id
                output_format cache_path w df w1 Hload) as [-> _].
    fold subset. by rewrite <- Hdups. }
  split.
  { destruct (department_loaded E fuel (Many ids) affiliation_id output_format
                cache_path w df w1 Hload) as [_ [Hw | [Hnil Hw]]].
    - exists (schedule E (hashed_ids subset)). split; [apply Hjoin|exact Hw].
    - exists []. fold subset in Hnil. rewrite Hnil. split; [done|].
      unfold call. rewrite Hw. by rewrite sent_all_nil. }
  intros out Hout. unfold call in Hout.
  destruct (Department.department E fuel (Many ids) affiliation_id output_format
              cache_path w) as [r w2] eqn:Hdep.
  simpl in Hout. subst r.
  destruct (department_Ok E fuel (Many ids) affiliation_id output_format
              cache_path w df w1 out w2 Hload Hdep) as [-> _].
  fold subset. etrans; [apply length_produced|].
  by rewrite (Hjoin (hashed_ids subset)), length_hashed_ids.
Qed.

Lemma duplicate_ids_select_once_witness :
  let call := Department.department Sample.E 0 (Many [IStr "A"; IStr "A"; IStr "C"])
                (IInt 404) "list" None Sample.w_abc in
  Department.select_rows Sample.abc (Many [IStr "A"; IStr "A"; IStr "C"])
  = [Sample.entry "A" "Physics" "aaa"; Sample.entry "C" "Geology" "ccc"]
  ∧ call = Department.department Sample.E 0 (Many [IStr "A"; IStr "C"]) (IInt 404)
             "list" None Sample.w_abc
  ∧ (∀ out, call.1 = Ok out → (length (records out) ≤ 2)%nat).
Proof.
  intros call.
  destruct (duplicate_ids_select_once Sample.E 0 [IStr "A"; IStr "A"; IStr "C"]
              (IInt 404) "list" None Sample.w_abc Sample.abc Sample.w_abc
              sample_joins_all eq_refl) as (_ & _ & Hcall & _ & Hlen).
  split; [reflexivity|]. split; [exact Hcall|exact Hlen].
Defined.

(** * More properties of the code *)

(** ** The crawl *)

Lemma crawl_Ok_inv E affiliation_id code fuel : ∀ page worker_result w t w',
  Department.crawl E fuel affiliation_id code (Z.of_nat page) worker_result w
  = (Ok t, w') →
  ∃ pages,
    (length pages < fuel)%nat
    ∧ (∀ i entries, pages !! i = Some entries →
         ∃ rows, rows ≠ []
                 ∧ listed E affiliation_id code (page + i) rows entries)
    ∧ listed E affiliation_id code (page + length pages) [] []
    ∧ t = worker_result ++ concat pages
    ∧ w' = sent_all
             ((λ p, Department.page_url E affiliation_id code (Z.of_nat p))
                <$> seq page (S (length pages))) w.
Proof.
  induction fuel as [|fuel IH]; intros page acc w t w' H; [discriminate H|].
  rewrite crawl_S in H.
  destruct (page_soup E affiliation_id code page) as [soup|] eqn:Hs;
    [|discriminate H].
  destruct (Department.parse_affiliation soup) as [a|e|] eqn:Ha;
    try discriminate H.
  destruct (listing soup) as [|row rows] eqn:Hl.
  - injection H as <- <-. exists []. simpl.
    split; [lia|]. split; [intros i es Hi; by rewrite lookup_nil in Hi|].
    rewrite Nat.add_0_r, app_nil_r. split; [|done].
    exists soup, a. done.
  - rewrite parse_rows_app in H.
    destruct (Department.parse_rows E a (row :: rows) []) as [es|e|] eqn:Hr;
      simpl in H; try discriminate H.
    apply IH in H as (pages & Hlen & Hpages & Hlast & -> & ->).
    exists (es :: pages). simpl. split; [lia|]. split; [|split; [|split]].
    + intros [|i] es' Hi; simpl in Hi.
      * injection Hi as <-. exists (row :: rows). split; [done|].
        rewrite Nat.add_0_r. exists soup, a. done.
      * destruct (Hpages i es' Hi) as (rows' & Hne & Hlisted).
        exists rows'. split; [done|].
        by replace (page + S i)%nat with (S page + i)%nat by lia.
    + by replace (page + S (length pages))%nat
        with (S page + length pages)%nat by lia.
    + by rewrite <- app_assoc.
    + by rewrite sent_sent_all.
Qed.

Lemma entries_of_pages_lookup pages i entries :
  pages !! i = Some entries → entries_of_pages pages (S i) = entries.
Proof.
  intros H. unfold entries_of_pages.
  replace (S i - 1)%nat with i by lia. by rewrite H.
Qed.

(** X1. When the crawl returns, it has sent the requests of the lookup of the
    affiliation and fetched the pages 1 to [n], the pages before page [n]
    had rows, page [n] had its block and no row, and the table is made of
    the entries of the pages before page [n], in their order. *)
Theorem crawl_returns_at_page_without_rows E fuel affiliation_id w t w' :
  Department.fetch_all_department E fuel affiliation_id w = (Ok t, w') →
  ∃ code pages,
    sinta_affiliation_code E affiliation_id = Ok code
    ∧ (length pages < fuel)%nat
    ∧ full_pages E affiliation_id code (entries_of_pages pages) 1 (length pages)
    ∧ listed E affiliation_id code (S (length pages)) [] []
    ∧ t = concat pages
    ∧ w' = sent_all (crawl_urls E affiliation_id code (S (length pages))) w.
Proof.
  rewrite fetch_all_department_unfold.
  destruct (sinta_affiliation_code E affiliation_id) as [code|e|];
    try discriminate.
  change 1 with (Z.of_nat 1). intros H.
  apply crawl_Ok_inv in H as (pages & Hlen & Hpages & Hlast & -> & ->).
  rewrite sent_all_app.
  exists code, pages. split; [done|]. split; [done|]. split; [|done].
  intros p Hp. destruct (lookup_lt_is_Some_2 pages (p - 1)) as [es Hes]; [lia|].
  destruct (Hpages _ _ Hes) as (rows & Hne & Hlisted).
  exists rows. split; [done|].
  replace (1 + (p - 1))%nat with p in Hlisted by lia.
  replace p with (S (p - 1)) at 2 by lia.
  by rewrite (entries_of_pages_lookup pages (p - 1) es).
Qed.

Lemma crawl_returns_at_page_without_rows_witness :
  ∃ code pages,
    sinta_affiliation_code Sample.E (IInt 404) = Ok code
    ∧ (length pages < 5)%nat
    ∧ full_pages Sample.E (IInt 404) code (entries_of_pages pages) 1 (length pages)
    ∧ listed Sample.E (IInt 404) code (S (length pages)) [] []
    ∧ Sample.table404 = concat pages
    ∧ (Department.fetch_all_department Sample.E 5 (IInt 404) Sample.w0).2
      = sent_all (crawl_urls Sample.E (IInt 404) code (S (length pages))) Sample.w0.
Proof.
  apply (crawl_returns_at_page_without_rows Sample.E 5 (IInt 404) Sample.w0).
  vm_compute. reflexivity.
Defined.

Lemma crawl_pages_in_order E affiliation_id code fuel : ∀ page worker_result w,
  ∃ k, (k ≤ fuel)%nat
       ∧ (Department.crawl E fuel affiliation_id code (Z.of_nat page)
            worker_result w).2
         = sent_all
             ((λ p, Department.page_url E affiliation_id code (Z.of_nat p))
                <$> seq page k) w.
Proof.
  induction fuel as [|fuel IH]; intros page acc w.
  { exists 0%nat. split; [lia|]. simpl. by rewrite sent_all_nil. }
  rewrite crawl_S.
  set (url0 := Department.page_url E affiliation_id code (Z.of_nat page)).
  assert (∃ k, (k ≤ S fuel)%nat
               ∧ sent url0 w
                 = sent_all
                     ((λ p, Department.page_url E affiliation_id code (Z.of_nat p))
                        <$> seq page k) w) as Hone.
  { exists 1%nat. split; [lia|done]. }
  destruct (page_soup E affiliation_id code page) as [soup|]; [|done].
  destruct (Department.parse_affiliation soup) as [a|e|]; try done.
  destruct (listing soup) as [|row rows]; [done|].
  destruct (Department.parse_rows E a (row :: rows) acc) as [acc'|e|]; try done.
  destruct (IH (S page) acc' (sent url0 w)) as (k & Hk & ->).
  exists (S k). split; [lia|]. by rewrite sent_sent_all.
Qed.

(** X2. Whatever a crawl comes to, the requests it has sent are those of the
    lookup of the affiliation, followed by those for the pages 1 to [k] of
    the listing, in this order and each once, for some [k] within the fuel;
    it sends none for a page when the code of the affiliation is not found,
    and it changes no file. *)
Theorem crawl_requests_consecutive_pages E fuel affiliation_id w :
  ∃ k, (k ≤ fuel)%nat
       ∧ (Department.fetch_all_department E fuel affiliation_id w).2
         = sent_all
             (sinta_affiliation_requests E affiliation_id
                ++ match sinta_affiliation_code E affiliation_id with
                   | Ok code => page_urls E affiliation_id code k
                   | _ => []
                   end) w.
Proof.
  rewrite fetch_all_department_unfold.
  destruct (sinta_affiliation_code E affiliation_id) as [code|e|].
  - change 1 with (Z.of_nat 1).
    destruct (crawl_pages_in_order E affiliation_id code fuel 1 []
                (sent_all (sinta_affiliation_requests E affiliation_id) w))
      as (k & Hk & ->).
    exists k. split; [done|]. apply sent_all_app.
  - exists 0%nat. split; [lia|]. by rewrite app_nil_r.
  - exists 0%nat. split; [lia|]. by rewrite app_nil_r.
Qed.

(** X3. As long as every page has rows the crawl does not end: when the pages 1
    to [fuel] all have rows, the call is still running after the requests of
    the lookup of the affiliation and [fuel] pages, for every [fuel]. *)
Theorem crawl_goes_on_while_rows E affiliation_id code entries w :
  sinta_affiliation_code E affiliation_id = Ok code →
  (∀ k, full_pages E affiliation_id code entries 1 k) →
  ∀ fuel,
    Department.fetch_all_department E fuel affiliation_id w
    = (Unfinished, sent_all (crawl_urls E affiliation_id code fuel) w).
Proof.
  intros Hcode Hfull fuel. rewrite fetch_all_department_unfold, Hcode.
  replace fuel with (fuel + 0)%nat at 1 by lia. change 1 with (Z.of_nat 1).
  rewrite (crawl_full_pages E affiliation_id code entries) by apply Hfull.
  rewrite sent_all_app. reflexivity.
Qed.

Lemma sample_endless k :
  full_pages Sample2.endless (IInt 404) "001028"
    (λ _, [Sample.entry "34201" "Geology" "ccc"]) 1 k.
Proof.
  intros p Hp. exists [Sample.geology]. split; [done|].
  exists (Sample.listing_page [Sample.geology]).
  eexists. split; [reflexivity|]. split; [reflexivity|].
  split; [reflexivity|]. vm_compute. reflexivity.
Qed.

Lemma crawl_goes_on_while_rows_witness :
  Department.fetch_all_department Sample2.endless 7 (IInt 404) Sample.w0
  = (Unfinished,
     sent_all (crawl_urls Sample2.endless (IInt 404) "001028" 7) Sample.w0).
Proof.
  apply (crawl_goes_on_while_rows Sample2.endless (IInt 404) "001028"
           (λ _, [Sample.entry "34201" "Geology" "ccc"]) Sample.w0 eq_refl
           sample_endless 7%nat).
Defined.

(** ** The rows of a page *)

Lemma parse_rows_cons E affiliation row rows :
  Department.parse_rows E affiliation (row :: rows) []
  = try r ← Department.parse_row E affiliation row;
    try entries ← Department.parse_rows E affiliation rows [];
    Ok (match r with Some d => d :: entries | None => entries end).
Proof.
  simpl. destruct (Department.parse_row E affiliation row) as [[d|]|e|]; simpl;
    try done.
  - by rewrite parse_rows_app.
  - by destruct (Department.parse_rows E affiliation rows []).
Qed.

Lemma parse_rows_first_failure E affiliation good bad rest entries e :
  Department.parse_rows E affiliation good [] = Ok entries →
  Department.parse_row E affiliation bad = Raise e →
  Department.parse_rows E affiliation (good ++ bad :: rest) [] = Raise e.
Proof.
  revert entries. induction good as [|row good IH]; intros entries Hgood Hbad.
  - simpl. by rewrite Hbad.
  - rewrite <- app_comm_cons, parse_rows_cons. rewrite parse_rows_cons in Hgood.
    destruct (Department.parse_row E affiliation row) as [r| |]; try discriminate.
    simpl in *.
    destruct (Department.parse_rows E affiliation good []) as [es| |];
      try discriminate.
    by rewrite (IH es).
Qed.

(** A row that looks like the row of a department but lacks its cell for
    the level raises an [AttributeError]; a row without link or without code
    is passed over without an error. *)
Lemma parse_row_without_level E affiliation row name_tag code_tag href :
  select_one ".tbl-content-name a" row = Some name_tag →
  select_one ".tbl-content-meta-num" row = Some code_tag →
  attr "href" name_tag = Ok href →
  Py.contains "department" href = true →
  Py.contains "Authors" (text name_tag) = false →
  select_one ".col-lg-1.tbl-content-meta.mb-2" row = None →
  Department.parse_row E affiliation row = Raise AttributeError.
Proof.
  intros Hn Hc Hh Hd Ha Hl. unfold Department.parse_row.
  rewrite Hn, Hc, Hh. cbn [rbind]. rewrite Hd, Ha. cbn [andb negb].
  by rewrite Hl.
Qed.

(** X4. One row that raises ends the whole crawl.  When the pages before page
    [n] have rows, and on page [n] the rows [good] are read and the next row
    raises [e], the call raises [e] after the request for page [n]: the
    entries read so far are not returned, and no later page is fetched.  The
    requests sent are those of the lookup of the affiliation and those for
    the pages 1 to [n]. *)
Theorem crawl_aborts_on_bad_row E fuel affiliation_id code entries n soup
    affiliation good bad rest found e w :
  sinta_affiliation_code E affiliation_id = Ok code →
  full_pages E affiliation_id code entries 1 (n - 1) →
  page_soup E affiliation_id code n = Some soup →
  Department.parse_affiliation soup = Ok affiliation →
  listing soup = good ++ bad :: rest →
  Department.parse_rows E affiliation good [] = Ok found →
  Department.parse_row E affiliation bad = Raise e →
  (1 ≤ n ≤ fuel)%nat →
  Department.fetch_all_department E fuel affiliation_id w
  = (Raise e, sent_all (crawl_urls E affiliation_id code n) w).
Proof.
  intros Hcode Hfull Hs Ha Hl Hgood Hbad Hn.
  rewrite (fetch_all_department_full_pages E fuel affiliation_id code entries n)
    by done.
  rewrite crawl_S, Hs, Ha, Hl.
  destruct (good ++ bad :: rest) as [|r0 rs] eqn:Hrows; [by destruct good|].
  rewrite <- Hrows.
  rewrite parse_rows_app,
    (parse_rows_first_failure _ _ _ _ _ found e Hgood Hbad).
  simpl rbind. cbv beta iota. rewrite sent_all_sent.
  destruct n as [|k]; [lia|]. replace (S k - 1)%nat with k by lia.
  by rewrite crawl_urls_S.
Qed.

Lemma crawl_aborts_on_bad_row_witness :
  Department.parse_row Sample2.E2
    (Build_affiliation_info "404" "001028" "Universitas A"
       "UA" "/affiliations/profile/404" "Bandung")
    Sample2.no_level_row = Raise AttributeError
  ∧ Department.fetch_all_department Sample2.E2 5 (IInt 407) Sample.w0
    = (Raise AttributeError,
       sent_all (crawl_urls Sample2.E2 (IInt 407) "001028" 2) Sample.w0).
Proof.
  split.
  - by apply (parse_row_without_level _ _ _
                (Sample.link "Chemistry"
                   "https://sinta.test/departments/profile/404/UNIV/DDD")
                (Sample.leaf "47201")
                "https://sinta.test/departments/profile/404/UNIV/DDD").
  - apply (crawl_aborts_on_bad_row Sample2.E2 5 (IInt 407) "001028"
             (λ _, [Sample.entry "45201" "Physics" "aaa";
                     Sample.entry "46201" "Biology" "bbb"])
             2 (Sample.listing_page
                  [Sample.geology; Sample2.no_level_row; Sample.physics])
             (Build_affiliation_info "404" "001028" "Universitas A"
                "UA" "/affiliations/profile/404" "Bandung")
             [Sample.geology] Sample2.no_level_row [Sample.physics]
             [Sample.entry "34201" "Geology" "ccc"] AttributeError Sample.w0).
    + reflexivity.
    + intros p Hp. assert (p = 1%nat) as -> by lia.
      exists [Sample.physics; Sample.biology]. split; [done|].
      eexists _, _. split; [reflexivity|]. split; [reflexivity|].
      split; [reflexivity|]. vm_compute. reflexivity.
    + reflexivity.
    + reflexivity.
    + reflexivity.
    + vm_compute. reflexivity.
    + reflexivity.
    + lia.
Defined.

(** ** The cache files *)





Lemma fetch_all_department_fs E fuel affiliation_id w r w' :
  Department.fetch_all_department E fuel affiliation_id w = (r, w') →
  fs w' = fs w.
Proof.
  intros H. destruct (fetch_all_department_world E fuel affiliation_id w)
    as [urls Hw]. rewrite H in Hw. simpl in Hw. by subst w'.
Qed.

(** X9. A crawl that raises leaves no cache file behind: without a file for the
    affiliation, the call raises the exception of the crawl right after the
    last request of the crawl, sends no request for a profile, and the file
    is still not there, so that the next call crawls again. *)
Theorem failed_crawl_leaves_no_cache E fuel department_ids affiliation_id
    output_format cache_path w e w' :
  fs w !! Department.cache_file E affiliation_id cache_path = None →
  Department.fetch_all_department E fuel affiliation_id w = (Raise e, w') →
  Department.department E fuel department_ids affiliation_id output_format
    cache_path w = (Raise e, w')
  ∧ fs w' = fs w.
Proof.
  intros Hcold Hcrawl. split; [|by eapply fetch_all_department_fs].
  rewrite department_unfold, load_table_cold_unfold by done.
  by rewrite Hcrawl.
Qed.

Lemma failed_crawl_leaves_no_cache_witness :
  Department.department Sample2.E2 5 (Many [IStr "45201"]) (IInt 408) "list"
    None Sample.w0
  = (Raise (ConnectionError
              "https://sinta.test/affiliations/departments/408/001028?page=2"),
     sent_all (crawl_urls Sample2.E2 (IInt 408) "001028" 2) Sample.w0).
Proof.
  apply (failed_crawl_leaves_no_cache Sample2.E2 5 (Many [IStr "45201"])
           (IInt 408) "list" None Sample.w0).
  - reflexivity.
  - vm_compute. reflexivity.
Defined.

(** X10. A crawl that finds no department, or that finds two entries with one
    hash, gives no table: the call raises the [KeyError] of the index, or the
    [ValueError] of the writer, after the crawl and before any request for a
    profile, and no cache file is made. *)
Theorem unusable_crawl_leaves_no_cache E fuel department_ids affiliation_id
    output_format cache_path w t w' :
  fs w !! Department.cache_file E affiliation_id cache_path = None →
  Department.fetch_all_department E fuel affiliation_id w = (Ok t, w') →
  t = [] ∨ ¬ NoDup (department_id_hash <$> t) →
  Department.department E fuel department_ids affiliation_id output_format
    cache_path w
  = (Raise (match t with
            | [] => KeyError "None of ['department_id_hash'] are in the columns"
            | _ => ValueError "DataFrame columns must be unique for orient='columns'."
            end), w')
  ∧ fs w' = fs w.
Proof.
  intros Hcold Hcrawl Ht. split; [|by eapply fetch_all_department_fs].
  rewrite department_unfold, load_table_cold_unfold by done.
  rewrite Hcrawl. destruct t as [|r0 t]; [reflexivity|].
  destruct Ht as [Ht | Ht]; [discriminate Ht|].
  unfold Department.from_dict_set_index, Department.to_json.
  by case_decide.
Qed.

Lemma unusable_crawl_leaves_no_cache_witness :
  Department.department Sample2.E2 5 (Many [IStr "45201"]) (IInt 409) "list"
    None Sample.w0
  = (Raise (KeyError "None of ['department_id_hash'] are in the columns"),
     sent_all (crawl_urls Sample2.E2 (IInt 409) "001028" 1) Sample.w0)
  ∧ Department.department Sample2.E2 5 (Many [IStr "45201"]) (IInt 410) "list"
      None Sample.w0
    = (Raise (ValueError "DataFrame columns must be unique for orient='columns'."),
       sent_all (crawl_urls Sample2.E2 (IInt 410) "001028" 2) Sample.w0).
Proof.
  split.
  - apply (unusable_crawl_leaves_no_cache Sample2.E2 5 (Many [IStr "45201"])
             (IInt 409) "list" None Sample.w0 []).
    + reflexivity.
    + vm_compute. reflexivity.
    + by left.
  - apply (unusable_crawl_leaves_no_cache Sample2.E2 5 (Many [IStr "45201"])
             (IInt 410) "list" None Sample.w0
             [Sample.entry "45201" "Physics" "aaa";
              Sample.entry "45201" "Physics" "aaa"]).
    + reflexivity.
    + vm_compute. reflexivity.
    + right. apply (bool_decide_unpack _). vm_compute. exact I.
Defined.

(** ** The pages that a worker accepts *)

Lemma getitem_Ok {A} (l : list A) i x : getitem l i = Ok x ↔ l !! i = Some x.
Proof.
  unfold getitem. destruct (l !! i); split; intros H; by simplify_eq.
Qed.

Lemma is_ok_Ok {A} (r : result A) : is_ok r ↔ ∃ x, r = Ok x.
Proof.
  destruct r; simpl; split; try (by intros [? ?]); try done. by eexists.
Qed.


Lemma call_Ok {A} (r : answer A) a : call r = Ok a ↔ r = Returns a.
Proof. destruct r; simpl; split; congruence. Qed.

(** X12. The worker of a department gives a record exactly for the pages that
    have a heading, a location and a first link of the profile with its
    address, of which [cast] accepts the last part; the record then has the
    five keys [id], [name], [location], [url] and [affiliation], with the
    identifier and the requested address as [id] and [url]. *)
Theorem department_parse_accepts E department_id url0 soup :
  (is_ok (Department.parse E department_id url0 soup) ↔ department_page_ok E soup)
  ∧ ∀ r, Department.parse E department_id url0 soup = Ok r →
         ∃ h3 loc a href last affil_id,
           select ".univ-name > h3" soup !! 0%nat = Some h3
           ∧ select ".affil-loc" soup !! 0%nat = Some loc
           ∧ select ".meta-profile > a" soup !! 0%nat = Some a
           ∧ attr "href" a = Ok href
           ∧ getitem_last (Py.split "/" href) = Ok last
           ∧ cast E last = Returns affil_id
           ∧ r = VDict [("id", of_ident department_id);
                        ("name", VStr (Py.strip (text h3)));
                        ("location", VStr (Py.strip (text loc)));
                        ("url", VStr url0);
                        ("affiliation",
                          VDict [("id", affil_id);
                                 ("name", VStr (Py.strip (text a)));
                                 ("url", VStr href)])].
Proof.
  split; [split|].
  - intros H. apply is_ok_Ok in H as [r H]. unfold Department.parse in H.
    steps H. apply getitem_Ok in Hx, Hx0, Hx1.
    unfold department_page_ok.
    destruct (select ".univ-name > h3" soup); [done|].
    destruct (select ".affil-loc" soup); [done|].
    destruct (select ".meta-profile > a" soup) as [|a rest]; [done|].
    simpl in Hx1. injection Hx1 as ->.
    split; [done|]. split; [done|]. exists x1, rest, x2, x3.
    split; [done|]. split; [done|]. split; [done|]. by rewrite Hx4.
  - intros (H1 & H2 & a & rest & href & last & H3 & H4 & H5 & H6).
    unfold Department.parse.
    destruct (select ".univ-name > h3" soup) as [|h3 ?]; [done|].
    destruct (select ".affil-loc" soup) as [|loc ?]; [done|].
    rewrite H3. apply is_ok_Ok in H6 as [v H6]. simpl. rewrite H4. simpl.
    rewrite H5. simpl. rewrite H6. done.
  - intros r H. unfold Department.parse in H. steps H.
    apply getitem_Ok in Hx, Hx0, Hx1. injection H as <-. apply call_Ok in Hx4.
    eexists x, x0, x1, x2, x3, x4. repeat split; done.
Qed.

Ltac all_steps :=
  repeat match goal with
    | H' : rbind ?e _ = Ok _ |- _ =>
        destruct e eqn:?; simpl in H'; [|discriminate H'..]
    | H' : Ok _ = Ok _ |- _ => injection H' as <-
    end.




(** X15. The record of an author has its fifteen keys in the order of the code;
    the six keys of the statistics come last and replace none of the first
    nine.  [url] is the address that was requested.  Without an avatar on
    the page [image_url] and [google_scholar_id] are [None]; with an avatar
    they are the source of the image and the user named in that address. *)
Theorem author_record_fields E author_id url0 soup r :
  Author.parse E author_id url0 soup = Ok r →
  ∃ d,
    r = VDict d
    ∧ d.*1 = author_keys
    ∧ dict_get "id" d = Some (of_ident author_id)
    ∧ dict_get "url" d = Some (VStr url0)
    ∧ match find "img" "alt" "avatar" soup with
      | None =>
          dict_get "image_url" d = Some VNone
          ∧ dict_get "google_scholar_id" d = Some VNone
      | Some t =>
          ∃ src user_id,
            attr "src" t = Ok src
            ∧ query_user E src = Returns user_id
            ∧ dict_get "image_url" d = Some (VStr src)
            ∧ dict_get "google_scholar_id" d = Some (of_option user_id)
      end.
Proof.
  unfold Author.parse. intros H.
  destruct (find "img" "alt" "avatar" soup) as [t|].
  - destruct (attr "src" t) as [src| |] eqn:Hsrc; cbn [rbind] in H.
    + all_steps.
      match goal with
      | H' : call (query_user E src) = Ok _ |- _ => apply call_Ok in H'
      end.
      eexists. split; [reflexivity|]. split; [reflexivity|].
      split; [reflexivity|]. split; [reflexivity|].
      eexists src, _. split; [done|]. split; [done|]. split; reflexivity.
    + all_steps; congruence.
    + all_steps; congruence.
  - all_steps.
    eexists. split; [reflexivity|]. split; [reflexivity|].
    split; [reflexivity|]. split; [reflexivity|]. split; reflexivity.
Qed.

Lemma author_record_fields_witness :
  ∃ d,
    Author.parse Sample3.E3 (IInt 1) "https://sinta.test/authors/profile/1"
      Sample3.author_page_avatar = Ok (VDict d)
    ∧ d.*1 = author_keys
    ∧ dict_get "google_scholar_id" d = Some (VStr "abc123").
Proof.
  destruct (Author.parse Sample3.E3 (IInt 1) "https://sinta.test/authors/profile/1"
              Sample3.author_page_avatar) as [r|e|] eqn:Hparse;
    [|vm_compute in Hparse; discriminate Hparse..].
  destruct (author_record_fields Sample3.E3 (IInt 1)
              "https://sinta.test/authors/profile/1" Sample3.author_page_avatar
              r Hparse) as (d & -> & Hkeys & _ & _ & Himg).
  exists d. split; [reflexivity|]. split; [exact Hkeys|].
  change (find "img" "alt" "avatar" Sample3.author_page_avatar)
    with (Some Sample3.avatar) in Himg.
  destruct Himg as (src & user_id & Hsrc & Huser & _ & Hid).
  injection Hsrc as <-. injection Huser as <-. exact Hid.
Defined.

(** ** Identifiers given more than once to [author] *)

Lemma produced_replicate outcome id r n :
  outcome id = Ok r → produced outcome (replicate n id) = replicate n r.
Proof.
  intros H.
  assert (∀ l, produced outcome (id :: l) = r :: produced outcome l) as Hcons.
  { intros l. unfold produced. simpl. by rewrite H. }
  induction n as [|n IH]; [done|].
  change (produced outcome (id :: replicate n id) = r :: replicate n r).
  by rewrite Hcons, IH.
Qed.

(** X16. [author] does not remove repetitions: an identifier that is given [n]
    times is requested [n] times and, when its page is accepted, gives [n]
    equal records; for no identifier at all no request is sent and no record
    is returned. *)
Theorem author_keeps_duplicates E author_id n output_format w r :
  joins_all E →
  recognized output_format →
  author_outcome E author_id = Ok r →
  ∃ out,
    Author.author E (Many (replicate n author_id)) output_format w
    = (Ok out, sent_all (replicate n (author_url E author_id)) w)
    ∧ records out = replicate n r.
Proof.
  intros Hjoin Hmode Hr. rewrite author_dispatch.
  destruct (dispatch_recognized E _ _ _ _ (author_worker_one_request E)
              (listify (Many (replicate n author_id))) output_format w Hmode)
    as (out & -> & Hout).
  rewrite compact_produced in Hout by apply author_outcome_id.
  assert (schedule E (replicate n author_id) = replicate n author_id) as Hs.
  { symmetry. apply replicate_Permutation. symmetry. apply Hjoin. }
  simpl listify in *. rewrite Hs in *.
  exists out. rewrite fmap_replicate. split; [done|].
  by rewrite Hout, (produced_replicate _ _ r).
Qed.

Lemma author_keeps_duplicates_witness :
  ∃ r out,
    author_outcome Sample.E (IInt 1) = Ok r
    ∧ Author.author Sample.E (Many [IInt 1; IInt 1]) "dict" Sample.w0
      = (Ok out,
         sent_all ["https://sinta.test/authors/profile/1";
                   "https://sinta.test/authors/profile/1"] Sample.w0)
    ∧ records out = [r; r].
Proof.
  destruct (author_outcome Sample.E (IInt 1)) as [r|e|] eqn:Hr;
    [|vm_compute in Hr; discriminate Hr..].
  destruct (author_keeps_duplicates Sample.E (IInt 1) 2 "dict" Sample.w0 r
              sample_joins_all (or_introl eq_refl) Hr) as (out & Hout & Hrec).
  exists r, out. split; [reflexivity|]. split; [exact Hout|exact Hrec].
Defined.

(** ** Strings *)

Lemma str_app_cons c s t : String c s +:+ t = String c (s +:+ t).
Proof. reflexivity. Qed.

Lemma str_app_nil_r s : s +:+ "" = s.
Proof. induction s as [|c s IH]; [done|]. by rewrite str_app_cons, IH. Qed.

Lemma str_app_assoc s1 s2 s3 : (s1 +:+ s2) +:+ s3 = s1 +:+ (s2 +:+ s3).
Proof.
  induction s1 as [|c s1 IH]; [done|]. by rewrite !str_app_cons, IH.
Qed.

Lemma str_length_app s1 s2 :
  String.length (s1 +:+ s2) = (String.length s1 + String.length s2)%nat.
Proof.
  induction s1 as [|c s1 IH]; [done|]. rewrite str_app_cons. simpl.
  by rewrite IH.
Qed.

Lemma str_app_inj_r s1 s2 t : s1 +:+ t = s2 +:+ t → s1 = s2.
Proof.
  revert s2. induction s1 as [|c s1 IH]; intros [|c2 s2] H.
  - done.
  - apply (f_equal String.length) in H.
    rewrite !str_length_app in H. simpl in H. lia.
  - apply (f_equal String.length) in H.
    rewrite !str_length_app in H. simpl in H. lia.
  - rewrite !str_app_cons in H. injection H as -> H. by rewrite (IH s2 H).
Qed.

Lemma rev_app_spec s1 s2 : String.rev_app s1 s2 = String.rev s1 +:+ s2.
Proof.
  revert s2. induction s1 as [|c s1 IH]; intros s2; [done|].
  unfold String.rev. simpl. rewrite (IH (String c s2)), (IH (String c "")).
  by rewrite str_app_assoc.
Qed.

Lemma rev_cons_app c cur s :
  String.rev (String c cur) +:+ s = String.rev cur +:+ String c s.
Proof.
  unfold String.rev at 1. simpl. rewrite rev_app_spec.
  by rewrite str_app_assoc.
Qed.

Lemma split_go_not_nil sep cur s : Py.split_go sep cur s ≠ [].
Proof.
  revert cur. induction s as [|c s IH]; intros cur; simpl; [done|].
  destruct (Ascii.eqb c sep); [done|apply IH].
Qed.

(** Joining the parts of a split gives the string back. *)
Lemma split_go_concat sep cur s :
  String.concat (String sep "") (Py.split_go sep cur s) = String.rev cur +:+ s.
Proof.
  revert cur. induction s as [|c s IH]; intros cur; simpl.
  { by rewrite str_app_nil_r. }
  destruct (Ascii.eqb c sep) eqn:Hc.
  - apply Ascii.eqb_eq in Hc as ->.
    pose proof (split_go_not_nil sep "" s) as Hne.
    destruct (Py.split_go sep "" s) as [|x xs] eqn:Hsplit; [done|].
    change (String.concat (String sep "") (String.rev cur :: x :: xs))
      with (String.rev cur +:+ String sep ""
              +:+ String.concat (String sep "") (x :: xs)).
    rewrite <- Hsplit, IH. reflexivity.
  - rewrite IH. apply rev_cons_app.
Qed.

Lemma split_concat sep s :
  String.concat (String sep "") (Py.split sep s) = s.
Proof. unfold Py.split. by rewrite split_go_concat. Qed.

Lemma sep_free_rev_app sep s1 s2 :
  sep_free sep (String.rev_app s1 s2) = sep_free sep s1 && sep_free sep s2.
Proof.
  revert s2. induction s1 as [|c s1 IH]; intros s2; [done|].
  simpl. rewrite IH. simpl. by destruct (Ascii.eqb c sep), (sep_free sep s1).
Qed.

Lemma sep_free_rev sep s : sep_free sep (String.rev s) = sep_free sep s.
Proof. unfold String.rev. rewrite sep_free_rev_app. simpl. apply andb_true_r. Qed.

Lemma split_go_parts_free sep cur s :
  sep_free sep cur = true →
  Forall (λ part, sep_free sep part = true) (Py.split_go sep cur s).
Proof.
  revert cur. induction s as [|c s IH]; intros cur Hcur; simpl.
  { constructor; [by rewrite sep_free_rev|constructor]. }
  destruct (Ascii.eqb c sep) eqn:Hc.
  - constructor; [by rewrite sep_free_rev|]. by apply IH.
  - apply IH. simpl. by rewrite Hc, Hcur.
Qed.

Lemma split_go_free sep cur s :
  sep_free sep s = true → Py.split_go sep cur s = [String.rev cur +:+ s].
Proof.
  revert cur. induction s as [|c s IH]; intros cur Hs; simpl.
  { by rewrite str_app_nil_r. }
  simpl in Hs. apply andb_true_iff in Hs as [Hc Hs].
  apply negb_true_iff in Hc. rewrite Hc, IH by done.
  by rewrite rev_cons_app.
Qed.

Lemma split_part_alone sep s part :
  part ∈ Py.split sep s → Py.split sep part = [part].
Proof.
  intros Hin. unfold Py.split in *.
  pose proof (split_go_parts_free sep "" s eq_refl) as Hfree.
  rewrite Forall_forall in Hfree. by rewrite split_go_free by auto.
Qed.

Lemma last_two {A} (l : list A) x y :
  last l = Some x → reverse l !! 1%nat = Some y → ∃ init, l = init ++ [y; x].
Proof.
  intros Hx Hy.
  destruct (reverse l) as [|x' [|y' r]] eqn:Hrev; try discriminate.
  simpl in Hy. injection Hy as ->.
  assert (l = (reverse r ++ [y]) ++ [x']) as ->.
  { rewrite <- (reverse_involutive l), Hrev, !reverse_cons. done. }
  rewrite last_snoc in Hx. injection Hx as ->.
  exists (reverse r). by rewrite <- app_assoc.
Qed.

Lemma concat_last_two sep init y x :
  ∃ base, String.concat sep (init ++ [y; x]) = base +:+ y +:+ sep +:+ x.
Proof.
  induction init as [|z init [base IH]].
  - by exists "".
  - exists (z +:+ sep +:+ base). simpl app.
    change (String.concat sep (z :: init ++ [y; x]))
      with (match init ++ [y; x] with
            | [] => z
            | _ => z +:+ sep +:+ String.concat sep (init ++ [y; x])
            end).
    rewrite IH. destruct (init ++ [y; x]) eqn:Hnil.
    + by destruct init.
    + by rewrite !str_app_assoc.
Qed.

(** ** The entries of a listing *)

Lemma parse_row_Some E block row d :
  Department.parse_row E block row = Ok (Some d) →
  ∃ name_tag code_tag level_tag href hash univ,
    select_one ".tbl-content-name a" row = Some name_tag
    ∧ select_one ".tbl-content-meta-num" row = Some code_tag
    ∧ select_one ".col-lg-1.tbl-content-meta.mb-2" row = Some level_tag
    ∧ attr "href" name_tag = Ok href
    ∧ Py.contains "department" href = true
    ∧ Py.contains "Authors" (text name_tag) = false
    ∧ last (Py.split "/" (str_lower E href)) = Some hash
    ∧ reverse (Py.split "/" (str_lower E href)) !! 1%nat = Some univ
    ∧ d = {| department_id := Py.strip (text code_tag);
             name := Py.strip (text name_tag);
             level := Py.strip (text level_tag);
             full_name := Py.strip (text name_tag) +:+ " ("
                            +:+ Py.strip (text level_tag) +:+ ")";
             url := str_lower E href;
             department_id_hash := hash;
             univ_id_hash := univ;
             affiliation := block |}.
Proof.
  unfold Department.parse_row. intros H.
  destruct (select_one ".tbl-content-name a" row) as [nt|]; [|discriminate].
  destruct (select_one ".tbl-content-meta-num" row) as [ct|]; [|discriminate].
  destruct (attr "href" nt) as [href| |] eqn:Hh; simpl in H; try discriminate.
  destruct (Py.contains "department" href) eqn:Hd; [|discriminate].
  destruct (Py.contains "Authors" (text nt)) eqn:Ha; [discriminate|].
  simpl in H.
  destruct (select_one ".col-lg-1.tbl-content-meta.mb-2" row) as [lt|];
    simpl in H; [|discriminate].
  unfold getitem_last, getitem_last2 in H.
  destruct (last (Py.split "/" (str_lower E href))) as [hash|] eqn:Hlast;
    simpl in H; [|discriminate].
  destruct (reverse (Py.split "/" (str_lower E href)) !! 1%nat) as [univ|]
    eqn:Hlast2; simpl in H; [|discriminate].
  injection H as <-. by exists nt, ct, lt, href, hash, univ.
Qed.

(** X6. An entry that a row gives carries the block of the page; its [url] is
    what [str.lower()] makes of the address of the link, and ends with the
    two hashes, which are whole parts of the path; and [full_name] is the
    name followed by the level in brackets. *)
Theorem parse_row_entry E block row d :
  Department.parse_row E block row = Ok (Some d) →
  affiliation d = block
  ∧ (∃ name_tag href,
       select_one ".tbl-content-name a" row = Some name_tag
       ∧ attr "href" name_tag = Ok href
       ∧ url d = str_lower E href
       ∧ Py.contains "department" href = true
       ∧ Py.contains "Authors" (text name_tag) = false)
  ∧ (∃ base, url d = base +:+ univ_id_hash d +:+ "/" +:+ department_id_hash d)
  ∧ Py.split "/" (department_id_hash d) = [department_id_hash d]
  ∧ Py.split "/" (univ_id_hash d) = [univ_id_hash d]
  ∧ full_name d = name d +:+ " (" +:+ level d +:+ ")".
Proof.
  intros H.
  apply parse_row_Some in H
    as (nt & ct & lt & href & hash & univ & Hn & _ & _ & Hh & Hd & Ha & Hlast
        & Hlast2 & ->).
  simpl. split; [done|]. split; [by exists nt, href|].
  destruct (last_two _ _ _ Hlast Hlast2) as [init Hsplit].
  split; [|split; [|split; [|done]]].
  - destruct (concat_last_two "/" init univ hash) as [base Hbase].
    exists base. rewrite <- Hbase, <- Hsplit. by rewrite split_concat.
  - apply (split_part_alone "/" (str_lower E href)). rewrite Hsplit.
    rewrite elem_of_app. right. by right; left.
  - apply (split_part_alone "/" (str_lower E href)). rewrite Hsplit.
    rewrite elem_of_app. right. by left.
Qed.

Lemma parse_row_entry_witness :
  let d := Sample.entry "34201" "Geology" "ccc" in
  (∃ base, url d = base +:+ univ_id_hash d +:+ "/" +:+ department_id_hash d)
  ∧ Py.split "/" (department_id_hash d) = [department_id_hash d].
Proof.
  intros d.
  assert (Department.parse_row Sample.E
            (Build_affiliation_info "404" "001028" "Universitas A" "UA"
               "/affiliations/profile/404" "Bandung")
            Sample.geology = Ok (Some d)) as H.
  { vm_compute. reflexivity. }
  destruct (parse_row_entry _ _ _ _ H) as (_ & _ & Hurl & Hhash & _).
  split; [exact Hurl|exact Hhash].
Defined.

Lemma length_omap_le {A B} (f : A → option B) l :
  (length (omap f l) ≤ length l)%nat.
Proof.
  induction l as [|x l IH]; [done|].
  change (omap f (x :: l))
    with (match f x with Some y => y :: omap f l | None => omap f l end).
  destruct (f x); cbn [length]; lia.
Qed.

(** X5. The rows of a page are read in their order: the entries of the page are
    the entries of the rows that give one, so there is at most one entry per
    row, and each carries the block of the page. *)
Theorem parse_rows_entries E block rows entries :
  Department.parse_rows E block rows [] = Ok entries →
  entries = omap (entry_of_row E block) rows
  ∧ (length entries ≤ length rows)%nat
  ∧ Forall (λ d, affiliation d = block) entries.
Proof.
  intros H.
  assert (entries = omap (entry_of_row E block) rows) as ->.
  { revert entries H. induction rows as [|row rows IH]; intros entries H.
    - simpl in H. by injection H as <-.
    - rewrite parse_rows_cons in H. simpl. unfold entry_of_row at 1.
      destruct (Department.parse_row E block row) as [r| |]; try discriminate.
      simpl in H.
      destruct (Department.parse_rows E block rows []) as [es| |];
        try discriminate.
      simpl in H. injection H as <-. rewrite (IH es eq_refl).
      by destruct r. }
  split; [done|]. split; [apply length_omap_le|].
  apply Forall_forall. intros d Hd.
  apply list_elem_of_omap in Hd as (row & _ & Hrow). unfold entry_of_row in Hrow.
  destruct (Department.parse_row E block row) as [[d'|]| |] eqn:Hp;
    try discriminate.
  injection Hrow as ->.
  by apply parse_row_Some in Hp as (? & ? & ? & ? & ? & ? & _ & _ & _ & _ & _ & _ & _ & _ & ->).
Qed.

Lemma parse_rows_entries_witness :
  omap (entry_of_row Sample.E
          (Build_affiliation_info "404" "001028" "Universitas A" "UA"
             "/affiliations/profile/404" "Bandung"))
    [Sample.authors_row; Sample.geology]
  = [Sample.entry "34201" "Geology" "ccc"].
Proof.
  symmetry.
  apply (parse_rows_entries Sample.E
           (Build_affiliation_info "404" "001028" "Universitas A" "UA"
              "/affiliations/profile/404" "Bandung")
           [Sample.authors_row; Sample.geology]
           [Sample.entry "34201" "Geology" "ccc"]).
  vm_compute. reflexivity.
Defined.

(** ** The name of the cache file *)

(** X11. For one cache directory, the cache files of two affiliations given
    as integers are the same exactly when the integers are equal; an
    affiliation given as the string of the digits of an integer has the
    cache file of that integer. *)
Theorem cache_file_injective E cache_path (x y : Z) :
  (Department.cache_file E (IInt x) cache_path
   = Department.cache_file E (IInt y) cache_path ↔ x = y)
  ∧ Department.cache_file E (IStr (pretty x)) cache_path
    = Department.cache_file E (IInt x) cache_path.
Proof.
  split; [|reflexivity]. unfold Department.cache_file. split.
  - intros H. apply (inj (String.app _)) in H.
    apply (inj (String.app "/")) in H. apply str_app_inj_r in H.
    simpl in H. by apply (inj pretty) in H.
  - by intros ->.
Qed.

(** ** The block about the affiliation *)

(** X7. The block of a page is accepted exactly when the page has the element
    of the university with its link, abbreviation, location and a line of
    codes of at least seven words; the id and the code of the affiliation
    are then the third and the seventh word of that line. *)
Theorem parse_affiliation_accepts soup :
  (is_ok (Department.parse_affiliation soup) ↔ header_ok soup)
  ∧ ∀ a, Department.parse_affiliation soup = Ok a →
         ∃ info code,
           select_one ".univ-name" soup = Some info
           ∧ select_one ".affil-code" info = Some code
           ∧ Py.split " " (Py.strip (text code)) !! 2%nat = Some (aff_id a)
           ∧ Py.split " " (Py.strip (text code)) !! 6%nat = Some (aff_code a).
Proof.
  split; [split|].
  - intros H. apply is_ok_Ok in H as [a H]. unfold Department.parse_affiliation in H.
    destruct (select_one ".univ-name" soup) as [info|] eqn:Hinfo; [|discriminate].
    simpl in H.
    destruct (select_one "h3 a" info) as [a0|] eqn:Ha0; [|discriminate].
    simpl in H. destruct (attr "href" a0) as [href| |] eqn:Hh; try discriminate.
    simpl in H.
    destruct (select_one ".affil-abbrev" info) as [ab|] eqn:Hab; [|discriminate].
    simpl in H.
    destruct (select_one ".affil-loc" info) as [lo|] eqn:Hlo; [|discriminate].
    simpl in H.
    destruct (select_one ".affil-code" info) as [co|] eqn:Hco; [|discriminate].
    simpl in H. steps H. apply getitem_Ok, lookup_lt_Some in Hx0.
    exists info, a0, co. split; [done|]. split; [done|].
    split; [by rewrite Hh|]. split; [by rewrite Hab|]. split; [by rewrite Hlo|].
    split; [done|]. lia.
  - intros (info & a0 & co & Hinfo & Ha0 & Hh & [ab Hab] & [lo Hlo] & Hco & Hlen).
    unfold Department.parse_affiliation. rewrite Hinfo. simpl. rewrite Ha0. simpl.
    apply is_ok_Ok in Hh as [href ->]. simpl. rewrite Hab, Hlo, Hco. simpl.
    destruct (lookup_lt_is_Some_2 (Py.split " " (Py.strip (text co))) 2)
      as [c2 H2]; [lia|].
    destruct (lookup_lt_is_Some_2 (Py.split " " (Py.strip (text co))) 6)
      as [c6 H6]; [lia|].
    unfold getitem. by rewrite H2, H6.
  - intros a H. unfold Department.parse_affiliation in H.
    destruct (select_one ".univ-name" soup) as [info|]; [|discriminate].
    simpl in H.
    destruct (select_one "h3 a" info) as [a0|]; [|discriminate].
    simpl in H. destruct (attr "href" a0) as [href| |]; try discriminate.
    simpl in H.
    destruct (select_one ".affil-abbrev" info) as [ab|]; [|discriminate].
    simpl in H.
    destruct (select_one ".affil-loc" info) as [lo|]; [|discriminate].
    simpl in H.
    destruct (select_one ".affil-code" info) as [co|] eqn:Hco; [|discriminate].
    simpl in H. steps H. apply getitem_Ok in Hx, Hx0. injection H as <-.
    exists info, co. simpl. done.
Qed.

(** ** The address of the profile of a department *)

Lemma unique_same h l :
  Forall (λ x, x = h) l → l ≠ [] → Department.unique l = [h].
Proof.
  induction 1 as [|x l -> Hl IH]; [done|]. intros _. simpl.
  destruct l as [|y l]; [done|]. rewrite IH by done. simpl.
  rewrite filter_cons_False by (intros Hne; by apply Hne). done.
Qed.

(** X13. The worker of a department puts the whole array of the hashes of the
    universities of the selected rows into the address, as an f-string
    prints that array: when the selected rows all have the hash [h], the
    array has the one element [h], and the worker of [id] requests
    [.../departments/profile/<affiliation>/<printed array>/<id>]. *)
Theorem department_worker_url E affiliation_id subset h department_id
    worker_result w :
  subset ≠ [] →
  Forall (λ row, univ_id_hash row = h) subset →
  log (Department.worker E department_id worker_result
         (kwargs_of affiliation_id subset) w).2
  = log w ++ [domain E +:+ "/departments/profile/" +:+ py_str affiliation_id
                +:+ "/" +:+ array_str E [h] +:+ "/" +:+ py_str department_id].
Proof.
  intros Hne Hsame.
  destruct (department_worker_one_request E (kwargs_of affiliation_id subset))
    as [-> _].
  unfold sent, department_url, kwargs_of. simpl. do 2 f_equal.
  rewrite (unique_same h); [done| |].
  - by apply Forall_fmap.
  - by destruct subset.
Qed.

Lemma department_worker_url_witness :
  log (Department.worker Sample.E (IStr "aaa") []
         (kwargs_of (IInt 404) Sample.abc) Sample.w0).2
  = ["https://sinta.test/departments/profile/404/['univ']/aaa"].
Proof.
  apply (department_worker_url Sample.E (IInt 404) Sample.abc "univ" (IStr "aaa")
           [] Sample.w0).
  - discriminate.
  - repeat constructor.
Defined.

Lemma parse_affiliation_accepts_witness :
  ∃ info code,
    select_one ".univ-name" (Sample.listing_page []) = Some info
    ∧ select_one ".affil-code" info = Some code
    ∧ Py.split " " (Py.strip (text code)) !! 2%nat = Some "404"
    ∧ Py.split " " (Py.strip (text code)) !! 6%nat = Some "001028".
Proof.
  apply (proj2 (parse_affiliation_accepts (Sample.listing_page []))
           (Build_affiliation_info "404" "001028" "Universitas A" "UA"
              "/affiliations/profile/404" "Bandung")).
  reflexivity.
Defined.

Lemma department_parse_accepts_witness :
  department_page_ok Sample.E Sample.department_page.
Proof.
  assert (is_ok (Department.parse Sample.E (IStr "aaa")
                   "https://sinta.test/departments/profile/404/['univ']/aaa"
                   Sample.department_page)) as H.
  { vm_compute. exact I. }
  exact (proj1 (proj1 (department_parse_accepts _ _ _ _)) H).
Defined.

(** ** What a first call leaves in the cache *)


